(** * ESC controller of the UAVCAN node (firmware/src/uavcan_node/esc_controller.cpp)

    A shallow embedding of the three handlers of the ESC controller
    ([cb_raw_command], [cb_rpm_command], [cb_esc]) and of its start-up
    routine ([init_esc_controller]), followed by the properties the
    specification states about them.

    - C++ [float] is IEEE binary32, modelled by the Standard Library's
      [spec_float] at precision 24 and maximal exponent 128.
    - [unsigned] values are naturals in [N] (they are only stored and
      compared, never computed with), [int] values integers in [Z]; the
      64-bit arithmetic of the monotonic clock has its wrap-around
      written out.
    - The file-scope variables of the translation unit (and the static
      local [prev_pub_ts]) form the record [Globals]; every handler is a
      computation in a small state/trace/fault monad over it.
    - Calls into collaborators (motor driver, publishers, subscribers,
      timer) are recorded as events of the trace, in program order. *)

From Stdlib Require Import ZArith NArith List Bool Lia Sorted.
From Stdlib Require Import Floats.SpecFloat.
Import ListNotations.
Local Open Scope Z_scope.

(* ------------------------------------------------------------------ *)
(** ** Binary32 floating point *)

Module F32.

Definition prec : Z := 24.
Definition emax : Z := 128.

(** Conversion of an integer to [float] (exact or rounded to nearest even). *)
Definition of_int (z : Z) : spec_float := binary_normalize prec emax z 0 false.

Definition mul : spec_float -> spec_float -> spec_float := SFmul prec emax.
Definition add : spec_float -> spec_float -> spec_float := SFadd prec emax.
Definition div : spec_float -> spec_float -> spec_float := SFdiv prec emax.

(** [x < y] and [x <= y]; both are false as soon as one side is a NaN. *)
Definition ltb : spec_float -> spec_float -> bool := SFltb.
Definition leb : spec_float -> spec_float -> bool := SFleb.
Definition eqb : spec_float -> spec_float -> bool := SFeqb.

Definition zero : spec_float := S754_zero false.
Definition one : spec_float := of_int 1.
(** The literal [0.5F]. *)
Definition half : spec_float := binary_normalize prec emax 1 (-1) false.
(** [std::numeric_limits<float>::quiet_NaN()]. *)
Definition quiet_NaN : spec_float := S754_nan.

(** [static_cast<unsigned>(x)]: truncation toward zero.  C++ leaves the
    conversion undefined when the truncated value does not fit; the model
    then follows the conversion routine of the ARM runtime the firmware is
    built for: negative values and NaN give 0, large values saturate. *)
Definition to_unsigned (x : spec_float) : Z :=
  match x with
  | S754_zero _ => 0
  | S754_nan => 0
  | S754_infinity s => if s then 0 else 2 ^ 32 - 1
  | S754_finite true _ _ => 0
  | S754_finite false m e =>
      let v := if 0 <=? e then Z.shiftl (Zpos m) e else Z.shiftr (Zpos m) (- e) in
      Z.min v (2 ^ 32 - 1)
  end.

End F32.

(* ------------------------------------------------------------------ *)
(** ** Monotonic clock

    Modelled from the spec: [uavcan::MonotonicTime] and
    [uavcan::MonotonicDuration] are declared in the UAVCAN library, outside
    this translation unit.  The spec speaks of the monotonic time elapsed
    between two time stamps, in milliseconds.  A time stamp is a count of
    microseconds held in an unsigned 64-bit integer, a duration a signed
    64-bit count of microseconds, and [toMSec] divides by 1000 with C++
    integer division (truncation toward zero). *)

Module Mono.

Definition uint64 (z : Z) : Z := z mod 2 ^ 64.

Definition int64 (z : Z) : Z :=
  let r := z mod 2 ^ 64 in if r <? 2 ^ 63 then r else r - 2 ^ 64.

(** [a - b] on time stamps: the difference of the larger and the smaller
    count, converted to a signed duration and negated when [a <= b]. *)
Definition sub (a b : Z) : Z :=
  if b <? a then int64 (uint64 (a - b)) else int64 (- int64 (uint64 (b - a))).

Definition toMSec (d : Z) : Z := Z.quot d 1000.

(** [MonotonicDuration::fromMSec]. *)
Definition fromMSec (ms : Z) : Z := int64 (ms * 1000).

(** A time stamp the clock can show during any realistic up-time. *)
Definition in_range (t : Z) : Prop := 0 <= t < 2 ^ 63.

End Mono.

(* ------------------------------------------------------------------ *)
(** ** Messages *)

(** [uavcan::equipment::esc::RawCommand]: per-slot raw duty-cycle set points. *)
Record RawCommand := { RawCommand_cmd : list Z }.

(** [uavcan::equipment::esc::RPMCommand]: per-slot target RPM. *)
Record RPMCommand := { RPMCommand_rpm : list Z }.

(** [uavcan::equipment::esc::RPMFeedback]. *)
Record RPMFeedback := {
  RPMFeedback_esc_index : N;
  RPMFeedback_rpm : Z
}.

(** [uavcan::equipment::esc::Status]; the commented-out [rpm] assignment of
    [cb_esc] leaves no such field to fill in. *)
Record Status := {
  Status_esc_index : N;
  Status_voltage : spec_float;
  Status_current : spec_float;
  Status_power_rating_pct : Z;
  Status_error_count : Z;
  Status_temperature : spec_float
}.

(** [uavcan::TimerEvent]; only [scheduled_time] is read. *)
Record TimerEvent := { scheduled_time : Z }.

(* ------------------------------------------------------------------ *)
(** ** Collaborators *)

(** What the motor driver ([motor/motor.h]) and the temperature sensor
    answer when a handler queries them.  The handlers only read these.

    Modelled from the spec: [temperature_sensor::get_temperature_K] is
    declared in [temperature_sensor.hpp], which is not part of this
    translation unit; the spec gives it as [temperatureKelvin() -> float],
    negative meaning an invalid reading.  The field holds the value of
    [float(temperature_sensor::get_temperature_K())]. *)
Record Hardware := {
  motor_is_idle : bool;
  motor_get_rpm : Z;
  motor_get_input_voltage_current : spec_float * spec_float;
  motor_get_duty_cycle : spec_float;
  motor_get_zc_failures_since_start : Z;
  get_temperature_K : spec_float
}.

(** The two message types published, the two subscribed to. *)
Inductive data_type := DtRawCommand | DtRPMCommand | DtStatus | DtRPMFeedback.

(** The result codes the transport returns to the four set-up calls of
    [init_esc_controller]; 0 is success. *)
Record INode := {
  sub_raw_command_start : Z;
  sub_rpm_command_start : Z;
  pub_status_init : Z;
  pub_rpm_fb_init : Z
}.

(** The values [get()] returns for the four configuration parameters
    [pub_rate_ms], [esc_index], [cmd_ttl_ms] and [cmd_start_dc]. *)
Record Params := {
  param_pub_rate_ms : N;
  param_esc_index : N;
  param_cmd_ttl_ms : N;
  param_cmd_start_dc : spec_float
}.

(** The declared ranges of the parameters (lines 57-60 of the source). *)
Definition params_in_range (p : Params) : bool :=
  (1 <=? param_pub_rate_ms p)%N && (param_pub_rate_ms p <=? 100)%N &&
  (0 <=? param_esc_index p)%N && (param_esc_index p <=? 15)%N &&
  (100 <=? param_cmd_ttl_ms p)%N && (param_cmd_ttl_ms p <=? 5000)%N &&
  F32.leb (F32.div (F32.of_int 1) (F32.of_int 100)) (param_cmd_start_dc p) &&
  F32.leb (param_cmd_start_dc p) F32.one.

(** Calls into collaborators, as they appear in a handler's trace. *)
Inductive event :=
| EvMotorStop
| EvMotorSetDutyCycle (dc : spec_float) (ttl_ms : N)
| EvMotorSetRpm (rpm : Z) (ttl_ms : N)
| EvArrayRead (i : N)
| EvBroadcastRpmFb (m : RPMFeedback)
| EvBroadcastStatus (m : Status)
| EvSubscriberStart (d : data_type)
| EvPublisherInit (d : data_type)
| EvTimerSetCallback
| EvTimerStartPeriodic (period_usec : Z).

(* ------------------------------------------------------------------ *)
(** ** Module state *)

(** The variables of the anonymous namespace, and the static local
    [prev_pub_ts] of [cb_esc].  A publisher pointer is [None] until
    [init_esc_controller] allocates the publisher. *)
Record Globals := {
  pub_status : option data_type;
  pub_rpm_fb : option data_type;
  publish_rate_ms : N;
  self_index : N;
  command_ttl_ms : N;
  max_dc_to_start : spec_float;
  prev_pub_ts : Z
}.

(** State before [init_esc_controller]: zero-initialised statics. *)
Definition boot : Globals :=
  {| pub_status := None; pub_rpm_fb := None;
     publish_rate_ms := 0%N; self_index := 0%N; command_ttl_ms := 0%N;
     max_dc_to_start := F32.zero; prev_pub_ts := 0 |}.

Definition set_pub_status (v : option data_type) (g : Globals) : Globals :=
  {| pub_status := v; pub_rpm_fb := pub_rpm_fb g;
     publish_rate_ms := publish_rate_ms g; self_index := self_index g;
     command_ttl_ms := command_ttl_ms g; max_dc_to_start := max_dc_to_start g;
     prev_pub_ts := prev_pub_ts g |}.

Definition set_pub_rpm_fb (v : option data_type) (g : Globals) : Globals :=
  {| pub_status := pub_status g; pub_rpm_fb := v;
     publish_rate_ms := publish_rate_ms g; self_index := self_index g;
     command_ttl_ms := command_ttl_ms g; max_dc_to_start := max_dc_to_start g;
     prev_pub_ts := prev_pub_ts g |}.

Definition set_config (p : Params) (g : Globals) : Globals :=
  {| pub_status := pub_status g; pub_rpm_fb := pub_rpm_fb g;
     publish_rate_ms := param_pub_rate_ms p; self_index := param_esc_index p;
     command_ttl_ms := param_cmd_ttl_ms p;
     max_dc_to_start := param_cmd_start_dc p;
     prev_pub_ts := prev_pub_ts g |}.

Definition set_max_dc_to_start (v : spec_float) (g : Globals) : Globals :=
  {| pub_status := pub_status g; pub_rpm_fb := pub_rpm_fb g;
     publish_rate_ms := publish_rate_ms g; self_index := self_index g;
     command_ttl_ms := command_ttl_ms g; max_dc_to_start := v;
     prev_pub_ts := prev_pub_ts g |}.

Definition set_prev_pub_ts (t : Z) (g : Globals) : Globals :=
  {| pub_status := pub_status g; pub_rpm_fb := pub_rpm_fb g;
     publish_rate_ms := publish_rate_ms g; self_index := self_index g;
     command_ttl_ms := command_ttl_ms g; max_dc_to_start := max_dc_to_start g;
     prev_pub_ts := t |}.

(** The four cached configuration values (the spec's NodeIdentity). *)
Definition config (g : Globals) : N * N * N * spec_float :=
  (publish_rate_ms g, self_index g, command_ttl_ms g, max_dc_to_start g).

(** Both publishers exist: the state every timer tick runs in, since the
    timer is started only after both were allocated. *)
Definition node_ready (g : Globals) : Prop :=
  pub_status g <> None /\ pub_rpm_fb g <> None.

(* ------------------------------------------------------------------ *)
(** ** The handler monad: state, trace of events, fault *)

Definition M (A : Type) : Type := Globals -> option (A * Globals * list event).

Definition ret {A : Type} (a : A) : M A := fun g => Some (a, g, []).

Definition bind {A B : Type} (m : M A) (k : A -> M B) : M B :=
  fun g =>
    match m g with
    | None => None
    | Some (a, g1, t1) =>
        match k a g1 with
        | None => None
        | Some (b, g2, t2) => Some (b, g2, t1 ++ t2)
        end
    end.

(** A fault ends the program: a failed library assertion or the use of a
    null pointer. *)
Definition fault {A : Type} : M A := fun _ => None.

Definition read {A : Type} (f : Globals -> A) : M A := fun g => Some (f g, g, []).
Definition modify (f : Globals -> Globals) : M unit := fun g => Some (tt, f g, []).
Definition emit (e : event) : M unit := fun g => Some (tt, g, [e]).

Declare Scope handler_scope.
Delimit Scope handler_scope with handler.
Notation "x <- m ;; k" := (bind m (fun x => k))
  (at level 61, m at next level, right associativity) : handler_scope.
Notation "m ;; k" := (bind m (fun _ => k))
  (at level 61, right associativity) : handler_scope.
Local Open Scope handler_scope.

(** *** Primitive actions *)

Definition motor_stop : M unit := emit EvMotorStop.
Definition motor_set_duty_cycle (dc : spec_float) (ttl_ms : N) : M unit :=
  emit (EvMotorSetDutyCycle dc ttl_ms).
Definition motor_set_rpm (rpm : Z) (ttl_ms : N) : M unit :=
  emit (EvMotorSetRpm rpm ttl_ms).

(** [a[i]] on a [uavcan::Array]: the library asserts that the index is in
    range.  Each access is recorded. *)
Definition array_at (a : list Z) (i : N) : M Z :=
  match nth_error a (N.to_nat i) with
  | Some v => emit (EvArrayRead i) ;; ret v
  | None => fault
  end.

(** [pub_rpm_fb->broadcast(m)] and [pub_status->broadcast(m)]. *)
Definition broadcast_rpm_fb (m : RPMFeedback) : M unit :=
  p <- read pub_rpm_fb ;;
  match p with
  | Some _ => emit (EvBroadcastRpmFb m)
  | None => fault
  end.

Definition broadcast_status (m : Status) : M unit :=
  p <- read pub_status ;;
  match p with
  | Some _ => emit (EvBroadcastStatus m)
  | None => fault
  end.

(* ------------------------------------------------------------------ *)
(** ** The handlers *)

Section Handlers.

(** [RawCommand::FieldTypes::cmd::RawValueType::max()], the largest raw
    set point of the message definition (generated code, not part of this
    translation unit); 8191 for the 14-bit field of the standard message. *)
Variable cmd_raw_max : Z.

(** Lines 70-71. *)
Definition scaled_dc_of (raw : Z) : spec_float :=
  F32.div (F32.of_int raw) (F32.of_int cmd_raw_max).

(** Lines 63-81. *)
Definition cb_raw_command (msg : RawCommand) (hw : Hardware) : M unit :=
  idx <- read self_index ;;
  if (N.of_nat (length (RawCommand_cmd msg)) <=? idx)%N then
    motor_stop
  else
    raw <- array_at (RawCommand_cmd msg) idx ;;
    let scaled_dc := scaled_dc_of raw in
    let idle := motor_is_idle hw in
    limit <- read max_dc_to_start ;;
    let accept := negb idle || (idle && F32.leb scaled_dc limit) in
    if accept && F32.ltb F32.zero scaled_dc then
      ttl <- read command_ttl_ms ;;
      motor_set_duty_cycle scaled_dc ttl
    else
      motor_stop.

(** Lines 83-97. *)
Definition cb_rpm_command (msg : RPMCommand) : M unit :=
  idx <- read self_index ;;
  if (N.of_nat (length (RPMCommand_rpm msg)) <=? idx)%N then
    motor_stop
  else
    rpm <- array_at (RPMCommand_rpm msg) idx ;;
    if 0 <? rpm then
      ttl <- read command_ttl_ms ;;
      motor_set_rpm rpm ttl
    else
      motor_stop.

(** Lines 104-105: the feedback message of a tick. *)
Definition assemble_rpm_fb (g : Globals) (hw : Hardware) : RPMFeedback :=
  {| RPMFeedback_esc_index := self_index g;
     RPMFeedback_rpm := motor_get_rpm hw |}.

(** Lines 110-121: the status message of a tick, before decimation. *)
Definition assemble_status (g : Globals) (hw : Hardware) : Status :=
  let temperature := get_temperature_K hw in
  {| Status_esc_index := self_index g;
     Status_voltage := fst (motor_get_input_voltage_current hw);
     Status_current := snd (motor_get_input_voltage_current hw);
     Status_power_rating_pct :=
       F32.to_unsigned
         (F32.add (F32.mul (motor_get_duty_cycle hw) (F32.of_int 100)) F32.half);
     Status_error_count := motor_get_zc_failures_since_start hw;
     Status_temperature :=
       if F32.ltb temperature F32.zero then F32.quiet_NaN else temperature |}.

(** Line 124: the decimation test. *)
Definition status_due (now prev : Z) : bool :=
  990 <=? Mono.toMSec (Mono.sub now prev).

(** Lines 99-128. *)
Definition cb_esc (ev : TimerEvent) (hw : Hardware) : M unit :=
  msg_rpm_fb <- read (fun g => assemble_rpm_fb g hw) ;;
  broadcast_rpm_fb msg_rpm_fb ;;
  msg_status <- read (fun g => assemble_status g hw) ;;
  prev <- read prev_pub_ts ;;
  if status_due (scheduled_time ev) prev then
    modify (set_prev_pub_ts (scheduled_time ev)) ;;
    broadcast_status msg_status
  else
    ret tt.

(** Lines 132-171.  The subscribers' callbacks are registered by [start];
    the timer's by [setCallback]. *)
Definition init_esc_controller (p : Params) (node : INode) : M Z :=
  modify (set_config p) ;;
  emit (EvSubscriberStart DtRawCommand) ;;
  let res := sub_raw_command_start node in
  if negb (res =? 0) then ret res else
  emit (EvSubscriberStart DtRPMCommand) ;;
  let res := sub_rpm_command_start node in
  if negb (res =? 0) then ret res else
  modify (set_pub_status (Some DtStatus)) ;;
  emit (EvPublisherInit DtStatus) ;;
  let res := pub_status_init node in
  if negb (res =? 0) then ret res else
  modify (set_pub_rpm_fb (Some DtRPMFeedback)) ;;
  emit (EvPublisherInit DtRPMFeedback) ;;
  let res := pub_rpm_fb_init node in
  if negb (res =? 0) then ret res else
  emit EvTimerSetCallback ;;
  rate <- read publish_rate_ms ;;
  emit (EvTimerStartPeriodic (Mono.fromMSec (Z.of_N rate))) ;;
  ret 0.

(** *** Sequences of handler invocations *)

(** One delivery by the transport: a received message or a timer tick. *)
Inductive invocation :=
| OnRawCommand (msg : RawCommand)
| OnRpmCommand (msg : RPMCommand)
| OnTimer (ev : TimerEvent).

(** The handler a delivery runs; [hw] is what the hardware answers
    during the call. *)
Definition dispatch (i : invocation) (hw : Hardware) : M unit :=
  match i with
  | OnRawCommand msg => cb_raw_command msg hw
  | OnRpmCommand msg => cb_rpm_command msg
  | OnTimer ev => cb_esc ev hw
  end.

(** Runs the deliveries in order; the log keeps, per delivery, the events
    it caused. *)
Fixpoint run (calls : list (invocation * Hardware)) (g : Globals)
  : option (Globals * list (invocation * list event)) :=
  match calls with
  | [] => Some (g, [])
  | (i, hw) :: rest =>
      match dispatch i hw g with
      | None => None
      | Some (_, g1, t) =>
          match run rest g1 with
          | None => None
          | Some (g2, log) => Some (g2, (i, t) :: log)
          end
      end
  end.

(** *** Reading traces *)

(** The actuation directives among the events. *)
Definition is_directive (e : event) : bool :=
  match e with
  | EvMotorStop | EvMotorSetDutyCycle _ _ | EvMotorSetRpm _ _ => true
  | _ => false
  end.

Definition directives (t : list event) : list event := filter is_directive t.

Definition is_array_read (e : event) : bool :=
  match e with EvArrayRead _ => true | _ => false end.

Definition is_status (e : event) : bool :=
  match e with EvBroadcastStatus _ => true | _ => false end.

Definition is_rpm_fb (e : event) : bool :=
  match e with EvBroadcastRpmFb _ => true | _ => false end.

Definition is_timer_start (e : event) : bool :=
  match e with EvTimerStartPeriodic _ => true | _ => false end.

(** The scheduled times of the ticks of a log that broadcast a status. *)
Fixpoint status_times (log : list (invocation * list event)) : list Z :=
  match log with
  | [] => []
  | (OnTimer ev, t) :: rest =>
      if existsb is_status t then scheduled_time ev :: status_times rest
      else status_times rest
  | _ :: rest => status_times rest
  end.

(** The spec's elapsed-time bound of the decimation, in microseconds. *)
Definition status_period_usec : Z := 990 * 1000.

Definition is_tick (i : invocation) : bool :=
  match i with OnTimer _ => true | _ => false end.

(** Every tick of the sequence carries a time stamp in range. *)
Definition ticks_in_range (calls : list (invocation * Hardware)) : Prop :=
  Forall (fun c => match fst c with
                   | OnTimer ev => Mono.in_range (scheduled_time ev)
                   | _ => True
                   end) calls.

(** The outcome the spec calls a fail-safe stop: the handler returns with
    the state untouched, one [Stop] issued and no array element read. *)
Definition stops_without_reading (g : Globals)
    (r : option (unit * Globals * list event)) : Prop :=
  exists t, r = Some (tt, g, t) /\
            directives t = [EvMotorStop] /\
            filter is_array_read t = [].

(** *** Reading logs of whole runs *)

(** All events of a run, in the order they happened. *)
Definition log_events (log : list (invocation * list event)) : list event :=
  concat (map snd log).

Definition is_broadcast (e : event) : bool := is_status e || is_rpm_fb e.

(** The timer ticks of a sequence of deliveries, and its commands. *)
Definition ticks_of (calls : list (invocation * Hardware))
  : list (invocation * Hardware) :=
  filter (fun c => is_tick (fst c)) calls.

Definition commands_of (calls : list (invocation * Hardware))
  : list (invocation * Hardware) :=
  filter (fun c => negb (is_tick (fst c))) calls.

(** The same split on a log. *)
Definition tick_entries (log : list (invocation * list event))
  : list (invocation * list event) :=
  filter (fun c => is_tick (fst c)) log.

Definition command_entries (log : list (invocation * list event))
  : list (invocation * list event) :=
  filter (fun c => negb (is_tick (fst c))) log.

(** What the handlers promise the motor driver about a directive: a
    positive set point and the time-to-live [ttl]. *)
Definition directive_in_contract (ttl : N) (e : event) : bool :=
  match e with
  | EvMotorSetDutyCycle dc t => F32.ltb F32.zero dc && (t =? ttl)%N
  | EvMotorSetRpm rpm t => (0 <? rpm) && (t =? ttl)%N
  | _ => true
  end.

(** What every broadcast of a node at slot [idx] satisfies: it carries
    [idx], and a status never carries a temperature below zero. *)
Definition broadcast_well_formed (idx : N) (e : event) : bool :=
  match e with
  | EvBroadcastRpmFb m => (RPMFeedback_esc_index m =? idx)%N
  | EvBroadcastStatus m =>
      (Status_esc_index m =? idx)%N &&
      negb (F32.ltb (Status_temperature m) F32.zero)
  | _ => true
  end.

(** One log entry holds what its kind of delivery may cause: a tick only
    broadcasts (one feedback, at most one status), a command only reads
    its array and issues one directive. *)
Definition entry_separated (c : invocation * list event) : bool :=
  let t := snd c in
  if is_tick (fst c)
  then forallb is_broadcast t
       && (length (filter is_rpm_fb t) =? 1)%nat
       && (length (filter is_status t) <=? 1)%nat
  else forallb (fun e => is_directive e || is_array_read e) t
       && (length (directives t) =? 1)%nat.

(** The values of a signed 14-bit field. *)
Definition int14 (raw : Z) : Prop := - 8192 <= raw <= 8191.

Definition int14_values : list Z :=
  map (fun n => Z.of_nat n - 8192) (seq 0 (Z.to_nat 16384)).

(** For a raw set point and the [float] computed from it: the [float] is
    positive exactly when the set point is, and it is at most 1. *)
Definition scaled_matches_raw (raw : Z) (scaled : spec_float) : bool :=
  Bool.eqb (F32.ltb F32.zero scaled) (0 <? raw) && F32.leb scaled F32.one.

(** The ticks of [calls] come in time order, none later than [gap] after
    the tick before it; [last_tick] is the time of the tick that preceded
    the sequence. *)
Fixpoint ticks_paced (gap last_tick : Z) (calls : list (invocation * Hardware))
  : Prop :=
  match calls with
  | [] => True
  | (OnTimer ev, _) :: rest =>
      last_tick <= scheduled_time ev <= last_tick + gap /\
      ticks_paced gap (scheduled_time ev) rest
  | _ :: rest => ticks_paced gap last_tick rest
  end.

(** The time of the last tick of [calls], [last_tick] if it has none. *)
Fixpoint last_tick_time (last_tick : Z) (calls : list (invocation * Hardware)) : Z :=
  match calls with
  | [] => last_tick
  | (OnTimer ev, _) :: rest => last_tick_time (scheduled_time ev) rest
  | _ :: rest => last_tick_time last_tick rest
  end.

(** Each element of the list is less than [bound] after the one before. *)
Fixpoint steps_below (bound : Z) (l : list Z) : Prop :=
  match l with
  | a :: (b :: _) as rest => b - a < bound /\ steps_below bound rest
  | _ => True
  end.

(* ------------------------------------------------------------------ *)
(** ** Sample data

    The node of the spec's examples: slot 3, a command window of 200 ms,
    a start-up limit of 0.05, both publishers in place, nothing published
    yet. *)

Definition sample_limit : spec_float := F32.div (F32.of_int 1) (F32.of_int 20).

Definition sample_node : Globals :=
  {| pub_status := Some DtStatus; pub_rpm_fb := Some DtRPMFeedback;
     publish_rate_ms := 40%N; self_index := 3%N; command_ttl_ms := 200%N;
     max_dc_to_start := sample_limit; prev_pub_ts := 0 |}.

Definition sample_params : Params :=
  {| param_pub_rate_ms := 40%N; param_esc_index := 3%N;
     param_cmd_ttl_ms := 200%N; param_cmd_start_dc := sample_limit |}.

(** Raw set points for the duty cycles 0.1, 0.2, 0.3, 0.9 and 0.5 of a
    14-bit field (maximum 8191). *)
Definition sample_raw : RawCommand :=
  {| RawCommand_cmd := [819; 1638; 2457; 7372; 4096] |}.

(** Another raw command, shorter, that agrees with [sample_raw] at slot 3
    only. *)
Definition sample_raw_other : RawCommand :=
  {| RawCommand_cmd := [0; -8192; 8191; 7372] |}.

Definition sample_rpm_short : RPMCommand := {| RPMCommand_rpm := [100; -5] |}.
Definition sample_rpm : RPMCommand := {| RPMCommand_rpm := [100; -5; 0; 2500] |}.

(** A motor with the given idle flag; the temperature sensor reports its
    error value -1. *)
Definition sample_hw (idle : bool) : Hardware :=
  {| motor_is_idle := idle;
     motor_get_rpm := 1200;
     motor_get_input_voltage_current := (F32.of_int 12, F32.of_int 3);
     motor_get_duty_cycle := F32.div (F32.of_int 1) (F32.of_int 2);
     motor_get_zc_failures_since_start := 7;
     get_temperature_K := F32.of_int (-1) |}.

Definition tick_at (msec : Z) : TimerEvent := {| scheduled_time := msec * 1000 |}.

(** Ticks at 500, 990, 1490, 1979 and 1980 ms, a raw command in between. *)
Definition sample_calls : list (invocation * Hardware) :=
  [(OnTimer (tick_at 500), sample_hw false);
   (OnTimer (tick_at 990), sample_hw false);
   (OnRawCommand sample_raw, sample_hw false);
   (OnTimer (tick_at 1490), sample_hw false);
   (OnTimer (tick_at 1979), sample_hw false);
   (OnTimer (tick_at 1980), sample_hw false)].

(** A transport whose status publisher fails to initialise, and one on
    which every set-up call succeeds. *)
Definition sample_node_failing : INode :=
  {| sub_raw_command_start := 0; sub_rpm_command_start := 0;
     pub_status_init := -3; pub_rpm_fb_init := 0 |}.

Definition sample_node_ok : INode :=
  {| sub_raw_command_start := 0; sub_rpm_command_start := 0;
     pub_status_init := 0; pub_rpm_fb_init := 0 |}.

(* ------------------------------------------------------------------ *)
(** ** Floating-point comparison *)

Lemma SFcompare_antisym (x y : spec_float) :
  SFcompare y x = option_map CompOpp (SFcompare x y).
Proof.
  destruct x as [sx | sx | | sx mx ex], y as [sy | sy | | sy my ey];
    simpl; try reflexivity;
    try (destruct sx; reflexivity); try (destruct sy; reflexivity);
    try (destruct sx, sy; reflexivity).
  assert (Hm : Pos.compare_cont Eq my mx = CompOpp (Pos.compare_cont Eq mx my))
    by (rewrite (Pos.compare_cont_antisym mx my Eq); reflexivity).
  destruct sx, sy; simpl; try reflexivity;
    rewrite (Z.compare_antisym ey ex), Hm;
    destruct (ey ?= ex); simpl; reflexivity.
Qed.

Lemma ltb_leb_false (a b : spec_float) :
  F32.ltb a b = true -> F32.leb b a = false.
Proof.
  unfold F32.ltb, F32.leb, SFltb, SFleb.
  rewrite (SFcompare_antisym a b).
  destruct (SFcompare a b) as [[ | | ] | ]; simpl; congruence.
Qed.

Lemma ltb_not_nan (a b : spec_float) :
  F32.ltb a b = true -> a <> S754_nan /\ b <> S754_nan.
Proof.
  unfold F32.ltb, SFltb.
  destruct a, b; simpl; intros H; split; congruence.
Qed.

Lemma ltb_zero_not_zero (a : spec_float) :
  F32.ltb a F32.zero = true -> F32.eqb a F32.zero = false.
Proof.
  unfold F32.ltb, F32.eqb, SFltb, SFeqb, F32.zero.
  destruct (SFcompare a (S754_zero false)) as [[ | | ] | ]; congruence.
Qed.

(* ------------------------------------------------------------------ *)
(** ** What one call of a command handler does *)

Ltac unfold_handler :=
  unfold cb_raw_command, cb_rpm_command, cb_esc, array_at,
    broadcast_rpm_fb, broadcast_status,
    motor_stop, motor_set_duty_cycle, motor_set_rpm,
    bind, read, modify, emit, ret, fault.

Lemma short_array (a : list Z) (i : N) :
  (length a < N.to_nat i + 1)%nat -> (N.of_nat (length a) <=? i)%N = true.
Proof. intros H. apply N.leb_le. lia. Qed.

Lemma long_array (a : list Z) (i : N) :
  (N.to_nat i + 1 <= length a)%nat ->
  (N.of_nat (length a) <=? i)%N = false /\
  nth_error a (N.to_nat i) = Some (nth (N.to_nat i) a 0).
Proof.
  intros H. split.
  - apply N.leb_gt. lia.
  - apply nth_error_nth'. lia.
Qed.

Lemma cb_raw_command_short (msg : RawCommand) (hw : Hardware) (g : Globals) :
  (length (RawCommand_cmd msg) < N.to_nat (self_index g) + 1)%nat ->
  cb_raw_command msg hw g = Some (tt, g, [EvMotorStop]).
Proof.
  intros H. unfold_handler. rewrite (short_array _ _ H). reflexivity.
Qed.

Lemma cb_rpm_command_short (msg : RPMCommand) (g : Globals) :
  (length (RPMCommand_rpm msg) < N.to_nat (self_index g) + 1)%nat ->
  cb_rpm_command msg g = Some (tt, g, [EvMotorStop]).
Proof.
  intros H. unfold_handler. rewrite (short_array _ _ H). reflexivity.
Qed.

Lemma cb_raw_command_long (msg : RawCommand) (hw : Hardware) (g : Globals) :
  (N.to_nat (self_index g) + 1 <= length (RawCommand_cmd msg))%nat ->
  let scaled := scaled_dc_of (nth (N.to_nat (self_index g)) (RawCommand_cmd msg) 0) in
  let idle := motor_is_idle hw in
  cb_raw_command msg hw g =
  Some (tt, g,
        [EvArrayRead (self_index g);
         if (negb idle || (idle && F32.leb scaled (max_dc_to_start g)))
            && F32.ltb F32.zero scaled
         then EvMotorSetDutyCycle scaled (command_ttl_ms g)
         else EvMotorStop]).
Proof.
  intros H scaled idle. destruct (long_array _ _ H) as [Hsz Hnth].
  unfold_handler. rewrite Hsz, Hnth. fold scaled idle.
  destruct ((negb idle || (idle && F32.leb scaled (max_dc_to_start g)))
            && F32.ltb F32.zero scaled); reflexivity.
Qed.

Lemma cb_rpm_command_long (msg : RPMCommand) (g : Globals) :
  (N.to_nat (self_index g) + 1 <= length (RPMCommand_rpm msg))%nat ->
  let rpm := nth (N.to_nat (self_index g)) (RPMCommand_rpm msg) 0 in
  cb_rpm_command msg g =
  Some (tt, g,
        [EvArrayRead (self_index g);
         if 0 <? rpm then EvMotorSetRpm rpm (command_ttl_ms g) else EvMotorStop]).
Proof.
  intros H rpm. destruct (long_array _ _ H) as [Hsz Hnth].
  unfold_handler. rewrite Hsz, Hnth. fold rpm.
  destruct (0 <? rpm); reflexivity.
Qed.

(** A command handler returns on every input, leaves the module state as
    it found it and issues a single directive. *)
Lemma cb_raw_command_total (msg : RawCommand) (hw : Hardware) (g : Globals) :
  exists t d, cb_raw_command msg hw g = Some (tt, g, t) /\
              directives t = [d] /\ is_directive d = true.
Proof.
  destruct (Nat.lt_ge_cases (length (RawCommand_cmd msg)) (N.to_nat (self_index g) + 1))
    as [Hs | Hl].
  - rewrite (cb_raw_command_short _ _ _ Hs). exists [EvMotorStop], EvMotorStop. auto.
  - rewrite (cb_raw_command_long _ _ _ Hl).
    match goal with |- context [if ?c then _ else _] => destruct c end;
      do 2 eexists; (split; [reflexivity | split; reflexivity]).
Qed.

Lemma cb_rpm_command_total (msg : RPMCommand) (g : Globals) :
  exists t d, cb_rpm_command msg g = Some (tt, g, t) /\
              directives t = [d] /\ is_directive d = true.
Proof.
  destruct (Nat.lt_ge_cases (length (RPMCommand_rpm msg)) (N.to_nat (self_index g) + 1))
    as [Hs | Hl].
  - rewrite (cb_rpm_command_short _ _ Hs). exists [EvMotorStop], EvMotorStop. auto.
  - rewrite (cb_rpm_command_long _ _ Hl).
    match goal with |- context [if ?c then _ else _] => destruct c end;
      do 2 eexists; (split; [reflexivity | split; reflexivity]).
Qed.

(* ------------------------------------------------------------------ *)
(** ** The command arbiter *)

(** C1.  On a raw command with at least [self_index + 1] slots,
    [cb_raw_command] issues [motor_set_duty_cycle(scaled, command_ttl_ms)]
    exactly when [scaled > 0] and the motor is running or
    [scaled <= max_dc_to_start]; otherwise it issues [motor_stop].  So an
    idle motor with [scaled] in (limit, 1] is stopped, an idle motor with
    [scaled] in (0, limit] is driven, and a running motor is driven for
    every [scaled] in (0, 1], whatever the limit. *)
Theorem cb_raw_command_accepts (msg : RawCommand) (hw : Hardware) (g : Globals) :
  (N.to_nat (self_index g) + 1 <= length (RawCommand_cmd msg))%nat ->
  let scaled := scaled_dc_of (nth (N.to_nat (self_index g)) (RawCommand_cmd msg) 0) in
  let idle := motor_is_idle hw in
  let limit := max_dc_to_start g in
  let set_dc := EvMotorSetDutyCycle scaled (command_ttl_ms g) in
  let accepted :=
    F32.ltb F32.zero scaled = true /\
    (idle = false \/ F32.leb scaled limit = true) in
  exists t,
    cb_raw_command msg hw g = Some (tt, g, t) /\
    (directives t = [set_dc] <-> accepted) /\
    (~ accepted -> directives t = [EvMotorStop]) /\
    (idle = true -> F32.ltb limit scaled = true ->
     F32.leb scaled F32.one = true -> directives t = [EvMotorStop]) /\
    (idle = true -> F32.ltb F32.zero scaled = true ->
     F32.leb scaled limit = true -> directives t = [set_dc]) /\
    (idle = false -> F32.ltb F32.zero scaled = true ->
     F32.leb scaled F32.one = true -> directives t = [set_dc]).
Proof.
  intros H scaled idle limit set_dc accepted.
  rewrite (cb_raw_command_long msg hw g H).
  fold scaled idle limit set_dc.
  eexists; split; [reflexivity |].
  pose proof (ltb_leb_false limit scaled) as Hgt.
  subst accepted.
  destruct idle, (F32.leb scaled limit), (F32.ltb F32.zero scaled);
    cbn [negb orb andb directives filter is_directive];
    repeat split; intros;
    repeat match goal with
           | Hc : _ /\ _ |- _ => destruct Hc
           | Hc : _ \/ _ |- _ => destruct Hc
           | Hn : ~ _ |- _ => exfalso; apply Hn; clear Hn
           end;
    try reflexivity; try discriminate; try congruence; auto.
  all: try (specialize (Hgt ltac:(assumption)); discriminate).
Qed.

(** C2.  A command message, raw or RPM, with fewer than [self_index + 1]
    slots makes its handler issue [motor_stop], and no slot is read. *)
Theorem undersized_message_stops (slots : list Z) (hw : Hardware) (g : Globals) :
  (length slots < N.to_nat (self_index g) + 1)%nat ->
  stops_without_reading g (cb_raw_command {| RawCommand_cmd := slots |} hw g) /\
  stops_without_reading g (cb_rpm_command {| RPMCommand_rpm := slots |} g).
Proof.
  intros H. split.
  - exists [EvMotorStop]. rewrite cb_raw_command_short by exact H. auto.
  - exists [EvMotorStop]. rewrite cb_rpm_command_short by exact H. auto.
Qed.

(** C3.  On an RPM command with at least [self_index + 1] slots,
    [cb_rpm_command] issues [motor_set_rpm(rpm, command_ttl_ms)] when
    [rpm = msg.rpm[self_index]] is positive and [motor_stop] when it is
    not; neither the state of the hardware nor [max_dc_to_start] enters
    the decision. *)
Theorem cb_rpm_command_sign (msg : RPMCommand) (g : Globals) :
  (N.to_nat (self_index g) + 1 <= length (RPMCommand_rpm msg))%nat ->
  let rpm := nth (N.to_nat (self_index g)) (RPMCommand_rpm msg) 0 in
  exists t,
    cb_rpm_command msg g = Some (tt, g, t) /\
    (0 < rpm -> directives t = [EvMotorSetRpm rpm (command_ttl_ms g)]) /\
    (rpm <= 0 -> directives t = [EvMotorStop]) /\
    (forall (hw : Hardware) (limit : spec_float),
        dispatch (OnRpmCommand msg) hw (set_max_dc_to_start limit g)
        = Some (tt, set_max_dc_to_start limit g, t)).
Proof.
  intros H rpm.
  exists [EvArrayRead (self_index g);
          if 0 <? rpm then EvMotorSetRpm rpm (command_ttl_ms g) else EvMotorStop].
  split; [| split; [| split]].
  - apply (cb_rpm_command_long msg g H).
  - intros Hpos. apply Z.ltb_lt in Hpos. rewrite Hpos. reflexivity.
  - intros Hneg. apply Z.ltb_ge in Hneg. rewrite Hneg. reflexivity.
  - intros hw limit. cbn [dispatch].
    rewrite (cb_rpm_command_long msg (set_max_dc_to_start limit g)) by exact H.
    reflexivity.
Qed.

(** C4.  Each call of [cb_raw_command] and of [cb_rpm_command] returns
    and issues one actuation directive, no more and no less, for every
    message and every state of the module and of the hardware. *)
Theorem one_directive_per_message (g : Globals) (hw : Hardware) :
  (forall msg : RawCommand,
      exists g' t d, cb_raw_command msg hw g = Some (tt, g', t) /\
                     directives t = [d] /\ is_directive d = true) /\
  (forall msg : RPMCommand,
      exists g' t d, cb_rpm_command msg g = Some (tt, g', t) /\
                     directives t = [d] /\ is_directive d = true).
Proof.
  split; intros msg.
  - destruct (cb_raw_command_total msg hw g) as (t & d & Hd). exists g, t, d. exact Hd.
  - destruct (cb_rpm_command_total msg g) as (t & d & Hd). exists g, t, d. exact Hd.
Qed.

(** C10.  Two raw commands with at least [self_index + 1] slots each that
    agree at slot [self_index] get the same outcome from
    [cb_raw_command] when the motor's idle flag is the same, whatever
    their other slots and lengths; likewise two RPM commands from
    [cb_rpm_command]. *)
Theorem directive_depends_on_own_slot
    (slots1 slots2 : list Z) (hw1 hw2 : Hardware) (g : Globals) :
  (N.to_nat (self_index g) + 1 <= length slots1)%nat ->
  (N.to_nat (self_index g) + 1 <= length slots2)%nat ->
  nth (N.to_nat (self_index g)) slots1 0 = nth (N.to_nat (self_index g)) slots2 0 ->
  motor_is_idle hw1 = motor_is_idle hw2 ->
  (exists t d,
      cb_raw_command {| RawCommand_cmd := slots1 |} hw1 g = Some (tt, g, t) /\
      cb_raw_command {| RawCommand_cmd := slots2 |} hw2 g = Some (tt, g, t) /\
      directives t = [d]) /\
  (exists t d,
      cb_rpm_command {| RPMCommand_rpm := slots1 |} g = Some (tt, g, t) /\
      cb_rpm_command {| RPMCommand_rpm := slots2 |} g = Some (tt, g, t) /\
      directives t = [d]).
Proof.
  intros H1 H2 Hslot Hidle. split.
  - destruct (cb_raw_command_total {| RawCommand_cmd := slots1 |} hw1 g)
      as (t & d & Ht & Hd & _).
    exists t, d. repeat split; try assumption.
    rewrite <- Ht.
    rewrite (cb_raw_command_long {| RawCommand_cmd := slots1 |} hw1 g) by exact H1.
    rewrite (cb_raw_command_long {| RawCommand_cmd := slots2 |} hw2 g) by exact H2.
    cbn [RawCommand_cmd]. rewrite Hslot, Hidle. reflexivity.
  - destruct (cb_rpm_command_total {| RPMCommand_rpm := slots1 |} g)
      as (t & d & Ht & Hd & _).
    exists t, d. repeat split; try assumption.
    rewrite <- Ht.
    rewrite (cb_rpm_command_long {| RPMCommand_rpm := slots1 |} g) by exact H1.
    rewrite (cb_rpm_command_long {| RPMCommand_rpm := slots2 |} g) by exact H2.
    cbn [RPMCommand_rpm]. rewrite Hslot. reflexivity.
Qed.

(* ------------------------------------------------------------------ *)
(** ** The clock *)

Lemma int64_small (z : Z) : - 2 ^ 63 <= z < 2 ^ 63 -> Mono.int64 z = z.
Proof.
  unfold Mono.int64.
  change (2 ^ 64) with 18446744073709551616.
  change (2 ^ 63) with 9223372036854775808.
  intros H. cbv zeta.
  destruct (Z.ltb_spec (z mod 18446744073709551616) 9223372036854775808);
    Z.to_euclidean_division_equations; lia.
Qed.

Lemma uint64_small (z : Z) : 0 <= z < 2 ^ 64 -> Mono.uint64 z = z.
Proof. intros H. unfold Mono.uint64. apply Z.mod_small. exact H. Qed.

(** In range, the clock difference is the difference of the integers. *)
Lemma sub_in_range (a b : Z) :
  Mono.in_range a -> Mono.in_range b -> Mono.sub a b = a - b.
Proof.
  unfold Mono.in_range, Mono.sub.
  change (2 ^ 63) with 9223372036854775808.
  intros Ha Hb.
  destruct (Z.ltb_spec b a).
  - rewrite uint64_small, int64_small;
      change (2 ^ 64) with 18446744073709551616;
      change (2 ^ 63) with 9223372036854775808; lia.
  - rewrite (uint64_small (b - a)), (int64_small (b - a)),
      (int64_small (- (b - a)));
      change (2 ^ 64) with 18446744073709551616;
      change (2 ^ 63) with 9223372036854775808; lia.
Qed.

Lemma status_due_spec (now prev : Z) :
  Mono.in_range now -> Mono.in_range prev ->
  status_due now prev = true <-> prev + status_period_usec <= now.
Proof.
  intros Hn Hp. unfold status_due, Mono.toMSec, status_period_usec.
  rewrite (sub_in_range now prev Hn Hp).
  rewrite Z.leb_le.
  Z.to_euclidean_division_equations; lia.
Qed.

(* ------------------------------------------------------------------ *)
(** ** The telemetry publisher *)

(** One tick, once both publishers exist. *)
Lemma cb_esc_ready (ev : TimerEvent) (hw : Hardware) (g : Globals) :
  node_ready g ->
  cb_esc ev hw g =
  Some (tt,
        (if status_due (scheduled_time ev) (prev_pub_ts g)
         then set_prev_pub_ts (scheduled_time ev) g else g),
        EvBroadcastRpmFb (assemble_rpm_fb g hw)
        :: (if status_due (scheduled_time ev) (prev_pub_ts g)
            then [EvBroadcastStatus (assemble_status g hw)] else [])).
Proof.
  intros [Hs Hf]. unfold_handler.
  destruct (pub_rpm_fb g) as [f |] eqn:Ef; [| contradiction].
  destruct (status_due (scheduled_time ev) (prev_pub_ts g)); [| reflexivity].
  cbn [pub_status set_prev_pub_ts].
  destruct (pub_status g) as [p |] eqn:Ep; [reflexivity | contradiction].
Qed.

Lemma set_prev_pub_ts_ready (t : Z) (g : Globals) :
  node_ready g -> node_ready (set_prev_pub_ts t g).
Proof. intros H. exact H. Qed.

(** C5.  Every tick broadcasts one [RPMFeedback] carrying [self_index]
    and the motor's measured RPM, whatever the decimation watermark and
    whether or not a [Status] goes out on the same tick. *)
Theorem cb_esc_feedback_every_tick (ev : TimerEvent) (hw : Hardware) (g : Globals) :
  node_ready g ->
  exists g' t,
    cb_esc ev hw g = Some (tt, g', t) /\
    filter is_rpm_fb t =
      [EvBroadcastRpmFb {| RPMFeedback_esc_index := self_index g;
                           RPMFeedback_rpm := motor_get_rpm hw |}] /\
    (forall b : bool, status_due (scheduled_time ev) (prev_pub_ts g) = b ->
                      existsb is_status t = b).
Proof.
  intros Hr. rewrite (cb_esc_ready ev hw g Hr). do 2 eexists.
  split; [reflexivity |].
  destruct (status_due (scheduled_time ev) (prev_pub_ts g));
    (split; [reflexivity | intros b Hb; rewrite <- Hb; reflexivity]).
Qed.

Lemma last_cons_default (a d : Z) (l : list Z) : last (a :: l) d = last l a.
Proof.
  revert a d. induction l as [| b l IH]; intros a d; [reflexivity |].
  change (last (a :: b :: l) d) with (last (b :: l) d).
  rewrite (IH b d), (IH b a). reflexivity.
Qed.

(** A sequence of deliveries, started with both publishers in place and
    all time stamps in range, runs to its end; the status broadcasts are
    pairwise at least 990 ms apart, none comes sooner than 990 ms after
    the initial watermark, and the final watermark is the time of the
    last one. *)
Lemma run_status_times (calls : list (invocation * Hardware)) :
  forall g : Globals,
    node_ready g -> Mono.in_range (prev_pub_ts g) -> ticks_in_range calls ->
    exists g' log,
      run calls g = Some (g', log) /\
      map fst log = map fst calls /\
      Forall (fun t => prev_pub_ts g + status_period_usec <= t) (status_times log) /\
      StronglySorted (fun a b => a + status_period_usec <= b) (status_times log) /\
      prev_pub_ts g' = last (status_times log) (prev_pub_ts g).
Proof.
  induction calls as [| [i hw] rest IH]; intros g Hr Hp Ht.
  - exists g, []. repeat split; constructor.
  - inversion Ht as [| c l Hc Hrest]; subst. cbn [fst] in Hc.
    destruct i as [msg | msg | ev]; cbn [run dispatch].
    + destruct (cb_raw_command_total msg hw g) as (t & d & Hrun & _).
      rewrite Hrun.
      destruct (IH g Hr Hp Hrest) as (g' & log & Hlog & Hm & Hf & Hs & Hl).
      rewrite Hlog. exists g', ((OnRawCommand msg, t) :: log).
      cbn [map fst status_times]. rewrite Hm. auto.
    + destruct (cb_rpm_command_total msg g) as (t & d & Hrun & _).
      rewrite Hrun.
      destruct (IH g Hr Hp Hrest) as (g' & log & Hlog & Hm & Hf & Hs & Hl).
      rewrite Hlog. exists g', ((OnRpmCommand msg, t) :: log).
      cbn [map fst status_times]. rewrite Hm. auto.
    + rewrite (cb_esc_ready ev hw g Hr).
      pose proof (status_due_spec (scheduled_time ev) (prev_pub_ts g) Hc Hp) as Hdue.
      destruct (status_due (scheduled_time ev) (prev_pub_ts g)).
      * assert (Hle : prev_pub_ts g + status_period_usec <= scheduled_time ev)
          by (apply Hdue; reflexivity).
        destruct (IH (set_prev_pub_ts (scheduled_time ev) g)
                    (set_prev_pub_ts_ready _ g Hr) Hc Hrest)
          as (g' & log & Hlog & Hm & Hf & Hs & Hl).
        rewrite Hlog. do 2 eexists. split; [reflexivity |].
        cbn [map fst status_times existsb is_status orb prev_pub_ts set_prev_pub_ts] in *.
        rewrite Hm. repeat split.
        -- constructor; [exact Hle |].
           eapply Forall_impl; [| exact Hf]. cbv beta. intros a Ha.
           unfold status_period_usec in *. lia.
        -- constructor; assumption.
        -- rewrite Hl. symmetry. apply last_cons_default.
      * destruct (IH g Hr Hp Hrest) as (g' & log & Hlog & Hm & Hf & Hs & Hl).
        rewrite Hlog. do 2 eexists. split; [reflexivity |].
        cbn [map fst status_times existsb is_status orb]. rewrite Hm. auto.
Qed.

(** C6.  A tick broadcasts the [Status] exactly when the decimation test
    of line 124 succeeds, which for time stamps in range means that at
    least 990 ms have elapsed since the watermark [prev_pub_ts]; the
    watermark becomes the tick's scheduled time when the broadcast
    happens and stays as it is otherwise.  Hence, over any sequence of
    deliveries, two [Status] broadcasts are at least 990 ms apart and the
    watermark is the time of the last one. *)
Theorem status_decimation (g : Globals) :
  node_ready g ->
  (forall (ev : TimerEvent) (hw : Hardware),
      exists g' t,
        cb_esc ev hw g = Some (tt, g', t) /\
        (existsb is_status t = true <->
         990 <= Mono.toMSec (Mono.sub (scheduled_time ev) (prev_pub_ts g))) /\
        (Mono.in_range (prev_pub_ts g) -> Mono.in_range (scheduled_time ev) ->
         (existsb is_status t = true <->
          status_period_usec <= scheduled_time ev - prev_pub_ts g)) /\
        (existsb is_status t = true ->
         filter is_status t = [EvBroadcastStatus (assemble_status g hw)] /\
         g' = set_prev_pub_ts (scheduled_time ev) g) /\
        (existsb is_status t = false -> g' = g)) /\
  (Mono.in_range (prev_pub_ts g) ->
   forall calls : list (invocation * Hardware),
     ticks_in_range calls ->
     exists g' log,
       run calls g = Some (g', log) /\
       map fst log = map fst calls /\
       StronglySorted (fun a b => status_period_usec <= b - a) (status_times log) /\
       prev_pub_ts g' = last (status_times log) (prev_pub_ts g)).
Proof.
  intros Hr. split.
  - intros ev hw. rewrite (cb_esc_ready ev hw g Hr).
    do 2 eexists. split; [reflexivity |].
    pose proof (status_due_spec (scheduled_time ev) (prev_pub_ts g)) as Hdue.
    unfold status_due in *.
    destruct (990 <=? Mono.toMSec (Mono.sub (scheduled_time ev) (prev_pub_ts g)))
      eqn:E; cbn [existsb is_status orb filter].
    + apply Z.leb_le in E. repeat split; intros; try discriminate; try assumption.
      assert (prev_pub_ts g + status_period_usec <= scheduled_time ev)
        by (apply Hdue; trivial). lia.
    + apply Z.leb_gt in E. repeat split; intros; try discriminate; try lia.
      assert (false = true) by (apply Hdue; trivial; lia). discriminate.
  - intros Hp calls Hc.
    destruct (run_status_times calls g Hr Hp Hc) as (g' & log & Hlog & Hm & _ & Hs & Hl).
    exists g', log. repeat split; try assumption.
    clear - Hs. induction Hs as [| a l Hs IH Ha]; constructor; [exact IH |].
    eapply Forall_impl; [| exact Ha]. cbv beta. intros; lia.
Qed.

(** C7.  When the temperature reading is negative the assembled [Status]
    carries a NaN temperature, which is neither zero nor the reading, and
    the message is the one the tick broadcasts when a status is due; a
    reading that is not negative is carried as it is. *)
Theorem invalid_temperature_is_nan (ev : TimerEvent) (hw : Hardware) (g : Globals) :
  let reading := get_temperature_K hw in
  let temperature := Status_temperature (assemble_status g hw) in
  (F32.ltb reading F32.zero = true ->
   temperature = F32.quiet_NaN /\
   F32.eqb temperature F32.zero = false /\
   temperature <> reading) /\
  (F32.ltb reading F32.zero = false -> temperature = reading) /\
  (node_ready g ->
   status_due (scheduled_time ev) (prev_pub_ts g) = true ->
   exists g' t,
     cb_esc ev hw g = Some (tt, g', t) /\
     filter is_status t = [EvBroadcastStatus (assemble_status g hw)]).
Proof.
  intros reading temperature. subst temperature.
  cbn [assemble_status Status_temperature]. fold reading.
  split; [| split].
  - intros Hneg. rewrite Hneg. repeat split.
    destruct (ltb_not_nan _ _ Hneg) as [Hn _]. unfold F32.quiet_NaN. congruence.
  - intros Hnn. rewrite Hnn. reflexivity.
  - intros Hr Hdue. rewrite (cb_esc_ready ev hw g Hr), Hdue.
    do 2 eexists. split; reflexivity.
Qed.

(* ------------------------------------------------------------------ *)
(** ** Start-up *)

Ltac unfold_init :=
  unfold init_esc_controller, bind, read, modify, emit, ret.

(** The state [init_esc_controller] leaves behind, whatever it returns:
    the configuration is the parameters', the watermark is untouched, and
    a zero result means both publishers exist. *)
Lemma init_esc_controller_state (p : Params) (node : INode) (g0 g : Globals)
    (res : Z) (t : list event) :
  init_esc_controller p node g0 = Some (res, g, t) ->
  config g = (param_pub_rate_ms p, param_esc_index p,
              param_cmd_ttl_ms p, param_cmd_start_dc p) /\
  prev_pub_ts g = prev_pub_ts g0 /\
  (res = 0 -> node_ready g).
Proof.
  unfold_init.
  destruct (sub_raw_command_start node =? 0) eqn:E1; cbn [negb];
    [| intros [= <- <- <-]; apply Z.eqb_neq in E1; repeat split; contradiction].
  destruct (sub_rpm_command_start node =? 0) eqn:E2; cbn [negb];
    [| intros [= <- <- <-]; apply Z.eqb_neq in E2; repeat split; contradiction].
  destruct (pub_status_init node =? 0) eqn:E3; cbn [negb];
    [| intros [= <- <- <-]; apply Z.eqb_neq in E3; repeat split; contradiction].
  destruct (pub_rpm_fb_init node =? 0) eqn:E4; cbn [negb];
    [| intros [= <- <- <-]; apply Z.eqb_neq in E4; repeat split; contradiction].
  intros [= <- <- <-]. repeat split; discriminate.
Qed.

(** Parameters within their declared ranges give a node index of at most
    15 and a command window between 100 and 5000 ms. *)
Lemma init_esc_controller_ranges (p : Params) (node : INode) (g0 g : Globals)
    (res : Z) (t : list event) :
  params_in_range p = true ->
  init_esc_controller p node g0 = Some (res, g, t) ->
  (1 <= publish_rate_ms g <= 100)%N /\
  (self_index g <= 15)%N /\
  (100 <= command_ttl_ms g <= 5000)%N /\
  F32.leb (max_dc_to_start g) F32.one = true.
Proof.
  intros Hp Hinit.
  destruct (init_esc_controller_state p node g0 g res t Hinit) as (Hcfg & _).
  unfold config in Hcfg. injection Hcfg as -> -> -> ->.
  unfold params_in_range in Hp.
  repeat (apply andb_prop in Hp; destruct Hp as [Hp ?]).
  repeat match goal with
         | H : (_ <=? _)%N = true |- _ => apply N.leb_le in H
         end.
  repeat split; assumption.
Qed.

(** C8.  [init_esc_controller] returns the result of the first of the
    four set-up calls (two subscriber starts, two publisher inits) that
    is not zero, unchanged, and performs nothing after that call, the
    timer start included; it returns 0 exactly when all four results are
    zero, and the periodic timer is started exactly then. *)
Theorem init_esc_controller_propagates (p : Params) (node : INode) (g : Globals) :
  let r1 := sub_raw_command_start node in
  let r2 := sub_rpm_command_start node in
  let r3 := pub_status_init node in
  let r4 := pub_rpm_fb_init node in
  let s1 := [EvSubscriberStart DtRawCommand] in
  let s2 := s1 ++ [EvSubscriberStart DtRPMCommand] in
  let s3 := s2 ++ [EvPublisherInit DtStatus] in
  let s4 := s3 ++ [EvPublisherInit DtRPMFeedback] in
  exists g' t res,
    init_esc_controller p node g = Some (res, g', t) /\
    (r1 <> 0 -> res = r1 /\ t = s1) /\
    (r1 = 0 -> r2 <> 0 -> res = r2 /\ t = s2) /\
    (r1 = 0 -> r2 = 0 -> r3 <> 0 -> res = r3 /\ t = s3) /\
    (r1 = 0 -> r2 = 0 -> r3 = 0 -> r4 <> 0 -> res = r4 /\ t = s4) /\
    (r1 = 0 -> r2 = 0 -> r3 = 0 -> r4 = 0 ->
     res = 0 /\
     t = s4 ++ [EvTimerSetCallback;
                EvTimerStartPeriodic (Mono.fromMSec (Z.of_N (param_pub_rate_ms p)))]) /\
    (res = 0 <-> r1 = 0 /\ r2 = 0 /\ r3 = 0 /\ r4 = 0) /\
    (existsb is_timer_start t = true <-> res = 0).
Proof.
  intros r1 r2 r3 r4 s1 s2 s3 s4. unfold_init. fold r1 r2 r3 r4.
  destruct (Z.eqb_spec r1 0) as [E1 | E1]; cbn [negb];
    [| do 3 eexists; split; [reflexivity |];
       cbn [existsb is_timer_start orb app];
       repeat split; intros; try congruence; try contradiction; tauto].
  destruct (Z.eqb_spec r2 0) as [E2 | E2]; cbn [negb];
    [| do 3 eexists; split; [reflexivity |];
       cbn [existsb is_timer_start orb app];
       repeat split; intros; try congruence; try contradiction; tauto].
  destruct (Z.eqb_spec r3 0) as [E3 | E3]; cbn [negb];
    [| do 3 eexists; split; [reflexivity |];
       cbn [existsb is_timer_start orb app];
       repeat split; intros; try congruence; try contradiction; tauto].
  destruct (Z.eqb_spec r4 0) as [E4 | E4]; cbn [negb];
    [| do 3 eexists; split; [reflexivity |];
       cbn [existsb is_timer_start orb app];
       repeat split; intros; try congruence; try contradiction; tauto].
  do 3 eexists; split; [reflexivity |].
  cbn [existsb is_timer_start orb app publish_rate_ms set_config set_pub_status
       set_pub_rpm_fb].
  repeat split; intros; try congruence; try contradiction; tauto.
Qed.

(* ------------------------------------------------------------------ *)
(** ** Frame of the handlers *)

Lemma set_prev_pub_ts_self (g : Globals) : g = set_prev_pub_ts (prev_pub_ts g) g.
Proof. destruct g; reflexivity. Qed.

(** A sequence of deliveries whose ticks, if any, find both publishers in
    place runs to its end and changes nothing but the watermark; without
    ticks it changes nothing. *)
Lemma run_frame (calls : list (invocation * Hardware)) :
  forall g : Globals,
    node_ready g \/ existsb is_tick (map fst calls) = false ->
    exists g' log,
      run calls g = Some (g', log) /\
      g' = set_prev_pub_ts (prev_pub_ts g') g /\
      (existsb is_tick (map fst calls) = false -> g' = g).
Proof.
  induction calls as [| [i hw] rest IH]; intros g Hg.
  - exists g, []. repeat split. apply set_prev_pub_ts_self.
  - destruct i as [msg | msg | ev]; cbn [run dispatch map fst existsb is_tick orb] in *.
    + destruct (cb_raw_command_total msg hw g) as (t & d & Hrun & _). rewrite Hrun.
      destruct (IH g Hg) as (g' & log & Hlog & Hf & Hn). rewrite Hlog.
      do 2 eexists. split; [reflexivity | split; assumption].
    + destruct (cb_rpm_command_total msg g) as (t & d & Hrun & _). rewrite Hrun.
      destruct (IH g Hg) as (g' & log & Hlog & Hf & Hn). rewrite Hlog.
      do 2 eexists. split; [reflexivity | split; assumption].
    + destruct Hg as [Hr | Hno]; [| discriminate].
      rewrite (cb_esc_ready ev hw g Hr).
      destruct (status_due (scheduled_time ev) (prev_pub_ts g)).
      * destruct (IH (set_prev_pub_ts (scheduled_time ev) g))
          as (g' & log & Hlog & Hf & Hn);
          [left; apply set_prev_pub_ts_ready; exact Hr |].
        rewrite Hlog. do 2 eexists.
        split; [reflexivity | split; [exact Hf | discriminate]].
      * destruct (IH g (or_introl Hr)) as (g' & log & Hlog & Hf & Hn).
        rewrite Hlog. do 2 eexists.
        split; [reflexivity | split; [exact Hf | discriminate]].
Qed.

(** C9.  After [init_esc_controller] the four cached configuration
    values are the parameters', and no sequence of command and timer
    callbacks changes them: at the end of the sequence the module state
    differs from the state after start-up in the decimation watermark at
    most, and not at all when no tick was delivered.  (Ticks are
    delivered only after a start-up that returned 0, which alone starts
    the timer.) *)
Theorem config_frame (p : Params) (node : INode) (g0 g : Globals)
    (res : Z) (t0 : list event) (calls : list (invocation * Hardware)) :
  init_esc_controller p node g0 = Some (res, g, t0) ->
  (existsb is_tick (map fst calls) = true -> res = 0) ->
  config g = (param_pub_rate_ms p, param_esc_index p,
              param_cmd_ttl_ms p, param_cmd_start_dc p) /\
  exists g' log,
    run calls g = Some (g', log) /\
    config g' = config g /\
    g' = set_prev_pub_ts (prev_pub_ts g') g /\
    (existsb is_tick (map fst calls) = false -> g' = g).
Proof.
  intros Hinit Hticks.
  destruct (init_esc_controller_state p node g0 g res t0 Hinit) as (Hcfg & _ & Hready).
  split; [exact Hcfg |].
  destruct (run_frame calls g) as (g' & log & Hrun & Hf & Hn).
  - destruct (existsb is_tick (map fst calls)); [left | right; reflexivity].
    apply Hready, Hticks. reflexivity.
  - exists g', log. repeat split; try assumption.
    rewrite Hf. reflexivity.
Qed.

(* ------------------------------------------------------------------ *)
(** ** Whole runs: what each delivery may cause *)

Lemma temperature_not_negative (g : Globals) (hw : Hardware) :
  F32.ltb (Status_temperature (assemble_status g hw)) F32.zero = false.
Proof.
  cbn [assemble_status Status_temperature].
  destruct (F32.ltb (get_temperature_K hw) F32.zero) eqn:E; [reflexivity | exact E].
Qed.

(** One delivery: it returns, moves nothing but the watermark, keeps to
    its kind of events, and what it sends is well formed. *)
Lemma dispatch_entry (i : invocation) (hw : Hardware) (g : Globals) :
  node_ready g \/ is_tick i = false ->
  exists g' t,
    dispatch i hw g = Some (tt, g', t) /\
    g' = set_prev_pub_ts (prev_pub_ts g') g /\
    entry_separated (i, t) = true /\
    forallb (directive_in_contract (command_ttl_ms g)) t = true /\
    forallb (broadcast_well_formed (self_index g)) t = true.
Proof.
  intros Hg. destruct i as [msg | msg | ev]; cbn [dispatch].
  - destruct (Nat.lt_ge_cases (length (RawCommand_cmd msg))
                (N.to_nat (self_index g) + 1)) as [Hs | Hl].
    + rewrite (cb_raw_command_short _ _ _ Hs). do 2 eexists.
      split; [reflexivity |]. split; [apply set_prev_pub_ts_self |].
      repeat split.
    + rewrite (cb_raw_command_long _ _ _ Hl). do 2 eexists.
      split; [reflexivity |]. split; [apply set_prev_pub_ts_self |].
      destruct (negb (motor_is_idle hw) || _); cbn [andb];
        [destruct (F32.ltb F32.zero _) eqn:E |];
        unfold entry_separated;
        cbn [fst snd is_tick forallb directives filter is_directive is_array_read
             directive_in_contract broadcast_well_formed orb andb length Nat.eqb];
        rewrite ?E, ?N.eqb_refl; repeat split.
  - destruct (Nat.lt_ge_cases (length (RPMCommand_rpm msg))
                (N.to_nat (self_index g) + 1)) as [Hs | Hl].
    + rewrite (cb_rpm_command_short _ _ Hs). do 2 eexists.
      split; [reflexivity |]. split; [apply set_prev_pub_ts_self |].
      repeat split.
    + rewrite (cb_rpm_command_long _ _ Hl). do 2 eexists.
      split; [reflexivity |]. split; [apply set_prev_pub_ts_self |].
      destruct (0 <? _) eqn:E;
        unfold entry_separated;
        cbn [fst snd is_tick forallb directives filter is_directive is_array_read
             directive_in_contract broadcast_well_formed orb andb length Nat.eqb];
        rewrite ?E, ?N.eqb_refl; repeat split.
  - destruct Hg as [Hr | Hno]; [| discriminate].
    rewrite (cb_esc_ready ev hw g Hr). do 2 eexists.
    split; [reflexivity |].
    pose proof (temperature_not_negative g hw) as Htemp.
    destruct (status_due (scheduled_time ev) (prev_pub_ts g));
      (split; [try apply set_prev_pub_ts_self; reflexivity |]);
      unfold entry_separated;
      cbn [fst snd is_tick forallb filter is_rpm_fb is_status is_broadcast
           directive_in_contract broadcast_well_formed orb andb length
           Nat.eqb Nat.leb assemble_rpm_fb RPMFeedback_esc_index
           Status_esc_index];
      rewrite ?N.eqb_refl; cbn [andb];
      rewrite ?Htemp; repeat split.
Qed.

(** The same along a run. *)
Lemma run_entries (calls : list (invocation * Hardware)) :
  forall g : Globals,
    node_ready g \/ existsb is_tick (map fst calls) = false ->
    exists g' log,
      run calls g = Some (g', log) /\
      map fst log = map fst calls /\
      forallb entry_separated log = true /\
      forallb (directive_in_contract (command_ttl_ms g)) (log_events log) = true /\
      forallb (broadcast_well_formed (self_index g)) (log_events log) = true.
Proof.
  induction calls as [| [i hw] rest IH]; intros g Hg.
  - exists g, []. repeat split.
  - cbn [run map fst existsb] in *.
    destruct (dispatch_entry i hw g) as (g1 & t & Hrun & Hframe & Hsep & Hdir & Hbc).
    { destruct Hg as [Hr | Hno]; [left; exact Hr | right].
      apply orb_false_iff in Hno. apply Hno. }
    rewrite Hrun.
    destruct (IH g1) as (g' & log & Hlog & Hm & Hseps & Hdirs & Hbcs).
    { destruct Hg as [Hr | Hno].
      - left. rewrite Hframe. apply set_prev_pub_ts_ready. exact Hr.
      - right. apply orb_false_iff in Hno. apply Hno. }
    rewrite Hlog. do 2 eexists. split; [reflexivity |].
    assert (Ettl : command_ttl_ms g1 = command_ttl_ms g) by (rewrite Hframe; reflexivity).
    assert (Eidx : self_index g1 = self_index g) by (rewrite Hframe; reflexivity).
    rewrite Ettl, Eidx in *.
    unfold log_events in *. cbn [map fst snd concat forallb].
    rewrite Hm, Hsep, Hseps, !forallb_app, Hdir, Hdirs, Hbc, Hbcs.
    repeat split.
Qed.

(** X1.  Over a whole run the handlers keep the motor driver's contract: every
    duty cycle issued is above zero, every RPM issued is positive, and
    each directive carries the command window configured at start-up. *)
Theorem run_directives_in_contract
    (calls : list (invocation * Hardware)) (g : Globals) :
  node_ready g \/ existsb is_tick (map fst calls) = false ->
  exists g' log,
    run calls g = Some (g', log) /\
    forall e, In e (log_events log) ->
      match e with
      | EvMotorSetDutyCycle dc ttl =>
          F32.ltb F32.zero dc = true /\ ttl = command_ttl_ms g
      | EvMotorSetRpm rpm ttl => 0 < rpm /\ ttl = command_ttl_ms g
      | _ => True
      end.
Proof.
  intros Hg.
  destruct (run_entries calls g Hg) as (g' & log & Hrun & _ & _ & Hdir & _).
  exists g', log. split; [exact Hrun |].
  intros e He. rewrite forallb_forall in Hdir. specialize (Hdir e He).
  destruct e; cbn [directive_in_contract] in Hdir; try exact I;
    apply andb_prop in Hdir; destruct Hdir as [Hpos Httl];
    apply N.eqb_eq in Httl; split; try assumption.
  apply Z.ltb_lt. exact Hpos.
Qed.

(** X2.  Over a whole run every broadcast names the node's own slot, and no
    status carries a temperature below zero. *)
Theorem run_broadcasts_well_formed
    (calls : list (invocation * Hardware)) (g : Globals) :
  node_ready g ->
  exists g' log,
    run calls g = Some (g', log) /\
    forall e, In e (log_events log) ->
      match e with
      | EvBroadcastRpmFb m => RPMFeedback_esc_index m = self_index g
      | EvBroadcastStatus m =>
          Status_esc_index m = self_index g /\
          F32.ltb (Status_temperature m) F32.zero = false
      | _ => True
      end.
Proof.
  intros Hr.
  destruct (run_entries calls g (or_introl Hr)) as (g' & log & Hrun & _ & _ & _ & Hbc).
  exists g', log. split; [exact Hrun |].
  intros e He. rewrite forallb_forall in Hbc. specialize (Hbc e He).
  destruct e; cbn [broadcast_well_formed] in Hbc; try exact I.
  - apply N.eqb_eq. exact Hbc.
  - apply andb_prop in Hbc. destruct Hbc as [Hidx Htemp].
    split; [apply N.eqb_eq; exact Hidx |].
    destruct (F32.ltb (Status_temperature m) F32.zero); [discriminate | reflexivity].
Qed.

Lemma filter_none (P Q : event -> bool) (t : list event) :
  (forall e, P e = true -> Q e = false) ->
  forallb P t = true -> filter Q t = [].
Proof.
  intros HPQ. induction t as [| e t IH]; cbn [forallb filter]; [reflexivity |].
  intros H. apply andb_prop in H. destruct H as [He Ht].
  rewrite (HPQ e He). apply IH. exact Ht.
Qed.

(** Counting along a log whose entries are separated by kind. *)
Lemma separated_log_counts (log : list (invocation * list event)) :
  forallb entry_separated log = true ->
  length (directives (log_events log)) = length (command_entries log) /\
  length (filter is_rpm_fb (log_events log)) = length (tick_entries log) /\
  (length (filter is_status (log_events log)) <= length (tick_entries log))%nat.
Proof.
  unfold log_events, command_entries, tick_entries, directives.
  induction log as [| [i t] log IH]; cbn [forallb map snd concat filter fst];
    intros H; [cbn [length]; lia |].
  apply andb_prop in H. destruct H as [Hsep Hrest].
  destruct (IH Hrest) as (Hd & Hf & Hs).
  rewrite !filter_app, !length_app.
  unfold entry_separated in Hsep. cbn [fst snd] in Hsep.
  destruct (is_tick i); cbn [negb length].
  - apply andb_prop in Hsep. destruct Hsep as [Hsep Hst].
    apply andb_prop in Hsep. destruct Hsep as [Hbc Hfb].
    apply Nat.eqb_eq in Hfb. apply Nat.leb_le in Hst.
    rewrite (filter_none is_broadcast is_directive t) by
      (try exact Hbc; intros [] He; cbn in He |- *; congruence).
    cbn [length]. lia.
  - apply andb_prop in Hsep. destruct Hsep as [Hkind Hone].
    apply Nat.eqb_eq in Hone. unfold directives in Hone.
    rewrite (filter_none (fun e => is_directive e || is_array_read e) is_rpm_fb t) by
      (try exact Hkind; intros [] He; cbn in He |- *; congruence).
    rewrite (filter_none (fun e => is_directive e || is_array_read e) is_status t) by
      (try exact Hkind; intros [] He; cbn in He |- *; congruence).
    cbn [length]. lia.
Qed.

Lemma length_filter_fst {A B : Type} (f : invocation -> bool)
    (l1 : list (invocation * A)) (l2 : list (invocation * B)) :
  map fst l1 = map fst l2 ->
  length (filter (fun c => f (fst c)) l1) = length (filter (fun c => f (fst c)) l2).
Proof.
  revert l2. induction l1 as [| [i a] l1 IH]; intros [| [j b] l2];
    cbn [map fst filter]; try discriminate; [reflexivity |].
  intros [= -> Hm]. specialize (IH l2 Hm).
  destruct (f j); cbn [length]; congruence.
Qed.

(** X3.  A run issues as many directives as it received commands and as many
    feedback reports as it saw ticks, and at most one status per tick:
    a tick causes broadcasts only, a command one directive and no
    broadcast. *)
Theorem run_counts (calls : list (invocation * Hardware)) (g : Globals) :
  node_ready g \/ existsb is_tick (map fst calls) = false ->
  exists g' log,
    run calls g = Some (g', log) /\
    length (directives (log_events log)) = length (commands_of calls) /\
    length (filter is_rpm_fb (log_events log)) = length (ticks_of calls) /\
    (length (filter is_status (log_events log)) <= length (ticks_of calls))%nat /\
    (forall i t, In (i, t) log ->
       if is_tick i
       then directives t = [] /\ filter is_array_read t = []
       else filter is_broadcast t = []).
Proof.
  intros Hg.
  destruct (run_entries calls g Hg) as (g' & log & Hrun & Hm & Hsep & _).
  exists g', log. split; [exact Hrun |].
  destruct (separated_log_counts log Hsep) as (Hd & Hf & Hs).
  unfold commands_of, ticks_of.
  rewrite <- (length_filter_fst (fun i => negb (is_tick i)) log calls Hm).
  rewrite <- (length_filter_fst is_tick log calls Hm).
  repeat split; try assumption.
  intros i t Hin. rewrite forallb_forall in Hsep. specialize (Hsep (i, t) Hin).
  unfold entry_separated in Hsep. cbn [fst snd] in Hsep.
  destruct (is_tick i).
  - apply andb_prop in Hsep. destruct Hsep as [Hsep _].
    apply andb_prop in Hsep. destruct Hsep as [Hbc _].
    split; apply (filter_none is_broadcast); try exact Hbc;
      intros [] He; cbn in He |- *; congruence.
  - apply andb_prop in Hsep. destruct Hsep as [Hkind _].
    apply (filter_none (fun e => is_directive e || is_array_read e));
      try exact Hkind; intros [] He; cbn in He |- *; congruence.
Qed.

(* ------------------------------------------------------------------ *)
(** ** Commands and telemetry do not disturb each other *)

(** A command handler does the same whatever the watermark. *)
Lemma command_ignores_watermark (i : invocation) (hw : Hardware)
    (g : Globals) (w : Z) :
  is_tick i = false ->
  exists t,
    dispatch i hw g = Some (tt, g, t) /\
    dispatch i hw (set_prev_pub_ts w g) = Some (tt, set_prev_pub_ts w g, t).
Proof.
  destruct i as [msg | msg | ev]; cbn [is_tick dispatch]; [| | discriminate]; intros _.
  - destruct (Nat.lt_ge_cases (length (RawCommand_cmd msg))
                (N.to_nat (self_index g) + 1)) as [Hs | Hl].
    + exists [EvMotorStop]. split; apply cb_raw_command_short; exact Hs.
    + eexists. split; [apply (cb_raw_command_long msg hw g Hl) |].
      apply (cb_raw_command_long msg hw (set_prev_pub_ts w g) Hl).
  - destruct (Nat.lt_ge_cases (length (RPMCommand_rpm msg))
                (N.to_nat (self_index g) + 1)) as [Hs | Hl].
    + exists [EvMotorStop]. split; apply cb_rpm_command_short; exact Hs.
    + eexists. split; [apply (cb_rpm_command_long msg g Hl) |].
      apply (cb_rpm_command_long msg (set_prev_pub_ts w g) Hl).
Qed.

Lemma run_commands_of (calls : list (invocation * Hardware)) (g : Globals) :
  node_ready g ->
  forall w : Z,
  exists g' log,
    run calls (set_prev_pub_ts w g) = Some (g', log) /\
    run (commands_of calls) g = Some (g, command_entries log).
Proof.
  intros Hr. unfold commands_of, command_entries.
  induction calls as [| [i hw] rest IH]; intros w.
  - do 2 eexists. split; reflexivity.
  - cbn [run filter fst]. destruct (is_tick i) eqn:Ei; cbn [negb].
    + destruct i as [msg | msg | ev]; try discriminate. cbn [dispatch].
      rewrite (cb_esc_ready ev hw (set_prev_pub_ts w g) Hr).
      destruct (status_due _ _).
      * destruct (IH (scheduled_time ev)) as (g' & log & Hlog & Hc).
        change (set_prev_pub_ts (scheduled_time ev) (set_prev_pub_ts w g))
          with (set_prev_pub_ts (scheduled_time ev) g).
        rewrite Hlog. do 2 eexists. split; [reflexivity | exact Hc].
      * destruct (IH w) as (g' & log & Hlog & Hc).
        rewrite Hlog. do 2 eexists. split; [reflexivity | exact Hc].
    + destruct (command_ignores_watermark i hw g w Ei) as (t & Hg & Hw).
      rewrite Hw. destruct (IH w) as (g' & log & Hlog & Hc). rewrite Hlog.
      do 2 eexists. split; [reflexivity |].
      cbn [run filter fst]. rewrite Ei. cbn [negb]. rewrite Hg, Hc. reflexivity.
Qed.

Lemma run_ticks_of (calls : list (invocation * Hardware)) :
  forall g : Globals,
    node_ready g ->
    exists g' log,
      run calls g = Some (g', log) /\
      run (ticks_of calls) g = Some (g', tick_entries log) /\
      status_times (tick_entries log) = status_times log.
Proof.
  unfold ticks_of, tick_entries.
  induction calls as [| [i hw] rest IH]; intros g Hr.
  - do 2 eexists. repeat split.
  - cbn [run filter fst]. destruct (is_tick i) eqn:Ei.
    + destruct i as [msg | msg | ev]; try discriminate. cbn [run dispatch].
      rewrite (cb_esc_ready ev hw g Hr).
      destruct (status_due _ _).
      * destruct (IH _ (set_prev_pub_ts_ready (scheduled_time ev) g Hr))
          as (g' & log & Hlog & Ht & Hs).
        rewrite Hlog, Ht. do 2 eexists. split; [reflexivity |].
        cbn [filter fst is_tick status_times existsb is_status orb].
        rewrite Hs. split; reflexivity.
      * destruct (IH g Hr) as (g' & log & Hlog & Ht & Hs).
        rewrite Hlog, Ht. do 2 eexists. split; [reflexivity |].
        cbn [filter fst is_tick status_times existsb is_status orb].
        rewrite Hs. split; reflexivity.
    + destruct (command_ignores_watermark i hw g 0 Ei) as (t & Hg & _).
      rewrite Hg. destruct (IH g Hr) as (g' & log & Hlog & Ht & Hs).
      rewrite Hlog. do 2 eexists. split; [reflexivity |].
      cbn [filter fst]. rewrite Ei. split; [exact Ht |].
      rewrite Hs. destruct i; try discriminate; reflexivity.
Qed.

(** X4.  Interleaving does not matter: the ticks of a run behave as if the
    commands had not been delivered (same log entries, same status
    times, same final state), and the commands as if there had been no
    tick (same log entries, hence the same directives). *)
Theorem commands_and_ticks_independent
    (calls : list (invocation * Hardware)) (g : Globals) :
  node_ready g ->
  exists g' log,
    run calls g = Some (g', log) /\
    run (ticks_of calls) g = Some (g', tick_entries log) /\
    run (commands_of calls) g = Some (g, command_entries log) /\
    status_times (tick_entries log) = status_times log /\
    directives (log_events (command_entries log)) = directives (log_events log).
Proof.
  intros Hr.
  destruct (run_ticks_of calls g Hr) as (g' & log & Hrun & Ht & Hs).
  destruct (run_commands_of calls g Hr (prev_pub_ts g)) as (g2 & log2 & Hrun2 & Hc).
  rewrite <- (set_prev_pub_ts_self g) in Hrun2.
  rewrite Hrun in Hrun2. injection Hrun2 as <- <-.
  exists g', log. repeat split; try assumption.
  destruct (run_entries calls g (or_introl Hr)) as (g3 & log3 & Hrun3 & _ & Hsep & _).
  rewrite Hrun in Hrun3. injection Hrun3 as <- <-.
  clear - Hsep. unfold log_events, command_entries, directives.
  induction log as [| [i t] log IH]; [reflexivity |].
  cbn [forallb] in Hsep. apply andb_prop in Hsep. destruct Hsep as [Hi Hrest].
  cbn [filter fst map snd concat]. rewrite filter_app, <- (IH Hrest).
  unfold entry_separated in Hi. cbn [fst snd] in Hi.
  destruct (is_tick i); cbn [negb map snd concat]; [| rewrite filter_app; reflexivity].
  apply andb_prop in Hi. destruct Hi as [Hi _].
  apply andb_prop in Hi. destruct Hi as [Hbc _].
  rewrite (filter_none is_broadcast is_directive t) by
    (try exact Hbc; intros [] He; cbn in He |- *; congruence).
  reflexivity.
Qed.

(* ------------------------------------------------------------------ *)
(** ** Cadence of the status report *)

Lemma status_period_positive : 0 < status_period_usec.
Proof. reflexivity. Qed.

(** X5.  With ticks no more than [gap] apart, a status follows the one before
    in less than 990 ms + [gap], and after every tick the last status is
    less than 990 ms old.  [tau] is the time of the tick that preceded
    the run (the watermark itself right after a status). *)
Theorem status_never_stale (gap : Z) (calls : list (invocation * Hardware)) :
  forall (g : Globals) (tau : Z),
    node_ready g ->
    Mono.in_range (prev_pub_ts g) ->
    ticks_in_range calls ->
    prev_pub_ts g <= tau < prev_pub_ts g + status_period_usec ->
    ticks_paced gap tau calls ->
    exists g' log,
      run calls g = Some (g', log) /\
      steps_below (status_period_usec + gap) (prev_pub_ts g :: status_times log) /\
      prev_pub_ts g' <= last_tick_time tau calls
                     < prev_pub_ts g' + status_period_usec.
Proof.
  pose proof status_period_positive as HP.
  induction calls as [| [i hw] rest IH]; intros g tau Hr Hp Ht Htau Hpace.
  - exists g, []. cbn [run status_times steps_below last_tick_time]. auto.
  - inversion Ht as [| c l Hc Hrest]; subst. cbn [fst] in Hc.
    destruct i as [msg | msg | ev];
      cbn [run dispatch ticks_paced last_tick_time] in *.
    + destruct (cb_raw_command_total msg hw g) as (t & d & Hrun & _). rewrite Hrun.
      destruct (IH g tau Hr Hp Hrest Htau Hpace) as (g' & log & Hlog & Hs & Hl).
      rewrite Hlog. do 2 eexists. split; [reflexivity |]. split; assumption.
    + destruct (cb_rpm_command_total msg g) as (t & d & Hrun & _). rewrite Hrun.
      destruct (IH g tau Hr Hp Hrest Htau Hpace) as (g' & log & Hlog & Hs & Hl).
      rewrite Hlog. do 2 eexists. split; [reflexivity |]. split; assumption.
    + destruct Hpace as [Hnext Hpace].
      rewrite (cb_esc_ready ev hw g Hr).
      pose proof (status_due_spec (scheduled_time ev) (prev_pub_ts g) Hc Hp) as Hdue.
      destruct (status_due (scheduled_time ev) (prev_pub_ts g)).
      * assert (Hle : prev_pub_ts g + status_period_usec <= scheduled_time ev)
          by (apply Hdue; reflexivity).
        destruct (IH (set_prev_pub_ts (scheduled_time ev) g) (scheduled_time ev)
                    (set_prev_pub_ts_ready _ g Hr) Hc Hrest)
          as (g' & log & Hlog & Hs & Hl);
          [cbn [prev_pub_ts set_prev_pub_ts]; lia | exact Hpace |].
        rewrite Hlog. do 2 eexists. split; [reflexivity |].
        cbn [status_times existsb is_status orb prev_pub_ts set_prev_pub_ts] in *.
        split; [| exact Hl].
        cbn [steps_below]. split; [lia | exact Hs].
      * assert (Hlt : scheduled_time ev < prev_pub_ts g + status_period_usec).
        { destruct (Z.lt_ge_cases (scheduled_time ev)
                      (prev_pub_ts g + status_period_usec)) as [Hlt | Hge];
            [exact Hlt |].
          assert (false = true) by (apply Hdue; lia). discriminate. }
        destruct (IH g (scheduled_time ev) Hr Hp Hrest) as (g' & log & Hlog & Hs & Hl);
          [lia | exact Hpace |].
        rewrite Hlog. do 2 eexists. split; [reflexivity |].
        cbn [status_times existsb is_status orb]. split; assumption.
Qed.

Lemma sorted_span (l : list Z) :
  forall w : Z,
    Forall (fun t => w + status_period_usec <= t) l ->
    StronglySorted (fun a b => a + status_period_usec <= b) l ->
    Z.of_nat (length l) * status_period_usec <= last l w - w.
Proof.
  induction l as [| a l IH]; intros w Hf Hs.
  - cbn [length last]. lia.
  - inversion Hf as [| ? ? Ha _]; subst.
    inversion Hs as [| ? ? Hs' Hall]; subst.
    specialize (IH a Hall Hs').
    rewrite last_cons_default. cbn [length]. lia.
Qed.

(** X6.  Rate limit: a run that broadcasts [n] status reports moves the
    watermark forward by at least [n] times 990 ms; in particular the
    watermark never goes back. *)
Theorem status_rate_limited (calls : list (invocation * Hardware)) (g : Globals) :
  node_ready g ->
  Mono.in_range (prev_pub_ts g) ->
  ticks_in_range calls ->
  exists g' log,
    run calls g = Some (g', log) /\
    length (filter is_status (log_events log)) = length (status_times log) /\
    Z.of_nat (length (status_times log)) * status_period_usec
    <= prev_pub_ts g' - prev_pub_ts g.
Proof.
  intros Hr Hp Ht.
  destruct (run_status_times calls g Hr Hp Ht) as (g' & log & Hrun & _ & Hf & Hs & Hl).
  exists g', log. split; [exact Hrun |]. split.
  - destruct (run_entries calls g (or_introl Hr)) as (g2 & log2 & Hrun2 & _ & Hsep & _).
    rewrite Hrun in Hrun2. injection Hrun2 as <- <-.
    clear - Hsep. unfold log_events.
    induction log as [| [i t] log IH]; [reflexivity |].
    cbn [forallb] in Hsep. apply andb_prop in Hsep. destruct Hsep as [Hi Hrest].
    cbn [map snd concat status_times]. rewrite filter_app, length_app, (IH Hrest).
    unfold entry_separated in Hi. cbn [fst snd] in Hi.
    destruct i as [msg | msg | ev]; cbn [is_tick] in Hi.
    + apply andb_prop in Hi. destruct Hi as [Hkind _].
      rewrite (filter_none (fun e => is_directive e || is_array_read e) is_status t)
        by (try exact Hkind; intros [] He; cbn in He |- *; congruence).
      reflexivity.
    + apply andb_prop in Hi. destruct Hi as [Hkind _].
      rewrite (filter_none (fun e => is_directive e || is_array_read e) is_status t)
        by (try exact Hkind; intros [] He; cbn in He |- *; congruence).
      reflexivity.
    + apply andb_prop in Hi. destruct Hi as [_ Hone]. apply Nat.leb_le in Hone.
      assert (Hex : existsb is_status t = negb (length (filter is_status t) =? 0)%nat).
      { clear. induction t as [| e t IH]; [reflexivity |].
        cbn [existsb filter]. destruct (is_status e); [reflexivity | exact IH]. }
      rewrite Hex.
      destruct (length (filter is_status t)) as [| [| n]]; cbn [Nat.eqb negb length];
        lia.
  - rewrite Hl. apply sorted_span; assumption.
Qed.

(** X7.  After a start-up from boot that returned 0 the watermark is still the
    clock's zero: no status goes out on a tick scheduled before 990 ms
    of up-time, and the first tick at or after 990 ms sends one. *)
Theorem first_status_after_boot (p : Params) (node : INode) (g : Globals)
    (t0 : list event) (calls : list (invocation * Hardware)) :
  init_esc_controller p node boot = Some (0, g, t0) ->
  ticks_in_range calls ->
  (exists g' log,
      run calls g = Some (g', log) /\
      Forall (fun t => status_period_usec <= t) (status_times log)) /\
  (forall (ev : TimerEvent) (hw : Hardware),
      Mono.in_range (scheduled_time ev) ->
      exists g1 t,
        cb_esc ev hw g = Some (tt, g1, t) /\
        existsb is_status t = (status_period_usec <=? scheduled_time ev)).
Proof.
  intros Hinit Ht.
  destruct (init_esc_controller_state p node boot g 0 t0 Hinit) as (_ & Hw & Hready).
  specialize (Hready eq_refl). cbn [prev_pub_ts boot] in Hw.
  assert (Hp : Mono.in_range (prev_pub_ts g))
    by (rewrite Hw; unfold Mono.in_range; lia).
  split.
  - destruct (run_status_times calls g Hready Hp Ht) as (g' & log & Hrun & _ & Hf & _).
    exists g', log. split; [exact Hrun |].
    eapply Forall_impl; [| exact Hf]. cbv beta. intros a Ha. lia.
  - intros ev hw Hev. rewrite (cb_esc_ready ev hw g Hready).
    pose proof (status_due_spec (scheduled_time ev) (prev_pub_ts g) Hev Hp) as Hdue.
    rewrite Hw in Hdue. do 2 eexists. split; [reflexivity |].
    rewrite Hw.
    destruct (status_due (scheduled_time ev) 0); cbn [existsb is_status orb];
      symmetry.
    + apply Z.leb_le. assert (0 + status_period_usec <= scheduled_time ev)
        by (apply Hdue; reflexivity). lia.
    + apply Z.leb_gt.
      destruct (Z.lt_ge_cases (scheduled_time ev) status_period_usec) as [Hlt | Hge];
        [exact Hlt |].
      assert (false = true) by (apply Hdue; lia). discriminate.
Qed.

(* ------------------------------------------------------------------ *)
(** ** The raw set point of the standard message *)

Lemma int14_values_complete (raw : Z) : int14 raw -> In raw int14_values.
Proof.
  unfold int14, int14_values. intros H.
  apply in_map_iff. exists (Z.to_nat (raw + 8192)). split; [lia |].
  apply in_seq. lia.
Qed.

Lemma scaled_int14_checked (m : Z) :
  m = 8191 ->
  forallb (fun raw => scaled_matches_raw raw (F32.div (F32.of_int raw) (F32.of_int m)))
          int14_values = true.
Proof. intros ->. vm_compute. reflexivity. Qed.

(** With a maximum of 8191, every 14-bit set point scales to a [float]
    that is positive exactly when the set point is, and at most 1. *)
Lemma scaled_dc_int14 (raw : Z) :
  cmd_raw_max = 8191 -> int14 raw ->
  F32.ltb F32.zero (scaled_dc_of raw) = (0 <? raw) /\
  F32.leb (scaled_dc_of raw) F32.one = true.
Proof.
  intros Hmax Hraw.
  pose proof (scaled_int14_checked cmd_raw_max Hmax) as Hall.
  rewrite forallb_forall in Hall.
  specialize (Hall raw (int14_values_complete raw Hraw)).
  unfold scaled_matches_raw in Hall. fold (scaled_dc_of raw) in Hall.
  apply andb_prop in Hall. destruct Hall as [Hsign Hle].
  split; [apply eqb_prop; exact Hsign | exact Hle].
Qed.

(** X8.  For the standard 14-bit message the decision can be read off the raw
    set point: a set point of zero or below stops the motor whatever its
    state, a running motor is driven by every positive set point, and a
    duty cycle handed to the motor driver is always within (0, 1]. *)
Theorem raw_command_by_set_point (msg : RawCommand) (hw : Hardware) (g : Globals) :
  cmd_raw_max = 8191 ->
  (N.to_nat (self_index g) + 1 <= length (RawCommand_cmd msg))%nat ->
  let raw := nth (N.to_nat (self_index g)) (RawCommand_cmd msg) 0 in
  int14 raw ->
  exists t,
    cb_raw_command msg hw g = Some (tt, g, t) /\
    (raw <= 0 -> directives t = [EvMotorStop]) /\
    (0 < raw -> motor_is_idle hw = false ->
     directives t = [EvMotorSetDutyCycle (scaled_dc_of raw) (command_ttl_ms g)]) /\
    (forall dc ttl, In (EvMotorSetDutyCycle dc ttl) t ->
                    F32.ltb F32.zero dc = true /\ F32.leb dc F32.one = true).
Proof.
  intros Hmax Hlen raw Hraw.
  destruct (scaled_dc_int14 raw Hmax Hraw) as [Hsign Hle].
  rewrite (cb_raw_command_long msg hw g Hlen). fold raw.
  eexists. split; [reflexivity |].
  rewrite Hsign.
  destruct (Z.ltb_spec 0 raw) as [Hpos | Hneg].
  - split; [lia |]. split.
    + intros _ Hrun. rewrite Hrun. reflexivity.
    + intros dc ttl [Hin | [Hin | []]]; [discriminate |].
      destruct (negb (motor_is_idle hw) || _); cbn [andb] in Hin; [| discriminate].
      injection Hin as <- _. split; assumption.
  - rewrite andb_false_r. split; [reflexivity |]. split; [lia |].
    intros dc ttl [Hin | [Hin | []]]; discriminate.
Qed.

(** X9.  With the default start-up limit of 1.0 the limit never rejects a
    14-bit command: an idle motor and a running one get the same
    directive from every message. *)
Theorem default_limit_never_rejects
    (msg : RawCommand) (hw1 hw2 : Hardware) (g : Globals) :
  cmd_raw_max = 8191 ->
  max_dc_to_start g = F32.one ->
  Forall int14 (RawCommand_cmd msg) ->
  cb_raw_command msg hw1 g = cb_raw_command msg hw2 g.
Proof.
  intros Hmax Hlimit Hall.
  destruct (Nat.lt_ge_cases (length (RawCommand_cmd msg))
              (N.to_nat (self_index g) + 1)) as [Hs | Hl].
  - rewrite !cb_raw_command_short by exact Hs. reflexivity.
  - rewrite (cb_raw_command_long msg hw1 g Hl), (cb_raw_command_long msg hw2 g Hl).
    assert (Hraw : int14 (nth (N.to_nat (self_index g)) (RawCommand_cmd msg) 0)).
    { rewrite Forall_forall in Hall. apply Hall. apply nth_In. lia. }
    destruct (scaled_dc_int14 _ Hmax Hraw) as [_ Hle].
    rewrite Hlimit, Hle.
    destruct (motor_is_idle hw1), (motor_is_idle hw2); reflexivity.
Qed.

(* ------------------------------------------------------------------ *)
(** ** More on start-up *)

(** X10.  Whatever it returns, [init_esc_controller] has cached the four
    parameters, leaves the watermark alone and neither moves the motor
    nor broadcasts.  The status publisher is allocated once both
    subscribers have started, the feedback publisher once the status
    publisher has initialised: a failure of the last set-up call leaves
    both publishers in place, a failed subscription leaves them as they
    were. *)
Theorem init_esc_controller_effects (p : Params) (node : INode) (g0 : Globals) :
  exists res g t,
    init_esc_controller p node g0 = Some (res, g, t) /\
    config g = (param_pub_rate_ms p, param_esc_index p,
                param_cmd_ttl_ms p, param_cmd_start_dc p) /\
    prev_pub_ts g = prev_pub_ts g0 /\
    directives t = [] /\
    filter is_broadcast t = [] /\
    pub_status g =
      (if (sub_raw_command_start node =? 0) && (sub_rpm_command_start node =? 0)
       then Some DtStatus else pub_status g0) /\
    pub_rpm_fb g =
      (if (sub_raw_command_start node =? 0) && (sub_rpm_command_start node =? 0)
          && (pub_status_init node =? 0)
       then Some DtRPMFeedback else pub_rpm_fb g0).
Proof.
  unfold_init.
  destruct (sub_raw_command_start node =? 0); cbn [negb andb];
    [| do 3 eexists; repeat split].
  destruct (sub_rpm_command_start node =? 0); cbn [negb andb];
    [| do 3 eexists; repeat split].
  destruct (pub_status_init node =? 0); cbn [negb andb];
    [| do 3 eexists; repeat split].
  destruct (pub_rpm_fb_init node =? 0); cbn [negb andb];
    do 3 eexists; repeat split.
Qed.

(** X11.  A start-up that returns 0 has started the timer once, with a period
    of [pub_rate_ms] milliseconds: the conversion to microseconds does
    not overflow for any 32-bit rate. *)
Theorem init_esc_controller_timer_period (p : Params) (node : INode)
    (g0 g : Globals) (t : list event) :
  (param_pub_rate_ms p < 2 ^ 32)%N ->
  init_esc_controller p node g0 = Some (0, g, t) ->
  filter is_timer_start t
  = [EvTimerStartPeriodic (Z.of_N (param_pub_rate_ms p) * 1000)] /\
  Mono.toMSec (Z.of_N (param_pub_rate_ms p) * 1000) = Z.of_N (param_pub_rate_ms p).
Proof.
  intros Hrate. unfold_init.
  assert (Hfit : Mono.fromMSec (Z.of_N (param_pub_rate_ms p))
                 = Z.of_N (param_pub_rate_ms p) * 1000).
  { unfold Mono.fromMSec. apply int64_small.
    change (2 ^ 32)%N with 4294967296%N in Hrate.
    change (2 ^ 63) with 9223372036854775808. lia. }
  destruct (Z.eqb_spec (sub_raw_command_start node) 0) as [E1 | E1]; cbn [negb];
    [| intros [= Hres _ _]; contradiction].
  destruct (Z.eqb_spec (sub_rpm_command_start node) 0) as [E2 | E2]; cbn [negb];
    [| intros [= Hres _ _]; contradiction].
  destruct (Z.eqb_spec (pub_status_init node) 0) as [E3 | E3]; cbn [negb];
    [| intros [= Hres _ _]; contradiction].
  destruct (Z.eqb_spec (pub_rpm_fb_init node) 0) as [E4 | E4]; cbn [negb];
    [| intros [= Hres _ _]; contradiction].
  intros [= <- <-].
  cbn [publish_rate_ms set_config set_pub_status set_pub_rpm_fb app filter
       is_timer_start].
  rewrite Hfit. split; [reflexivity |].
  unfold Mono.toMSec. apply Z.quot_mul. discriminate.
Qed.

(* ------------------------------------------------------------------ *)
(** ** Raising the start-up limit *)

Lemma SFleb_trans (a b c : spec_float) :
  SFleb a b = true -> SFleb b c = true -> SFleb a c = true.
Proof.
  unfold SFleb.
  destruct a as [sa | sa | | sa ma ea], b as [sb | sb | | sb mb eb],
           c as [sc | sc | | sc mc ec];
    cbn [SFcompare]; try discriminate; try reflexivity;
    try (destruct sa; try discriminate; try reflexivity);
    try (destruct sb; try discriminate; try reflexivity);
    try (destruct sc; try discriminate; try reflexivity).
  all: fold (Pos.compare ma mb); fold (Pos.compare mb mc); fold (Pos.compare ma mc).
  all: destruct (Z.compare_spec ea eb), (Z.compare_spec eb ec), (Z.compare_spec ea ec);
    try discriminate; try reflexivity; try lia.
  all: destruct (Pos.compare_spec ma mb), (Pos.compare_spec mb mc),
         (Pos.compare_spec ma mc);
    cbn [CompOpp]; try discriminate; try reflexivity; try lia.
Qed.

(** X12.  A command that is accepted under one start-up limit is accepted, with
    the same directive, under every larger limit. *)
Theorem raising_limit_keeps_acceptance
    (msg : RawCommand) (hw : Hardware) (g : Globals) (limit1 limit2 : spec_float) :
  F32.leb limit1 limit2 = true ->
  exists t1 t2,
    cb_raw_command msg hw (set_max_dc_to_start limit1 g)
    = Some (tt, set_max_dc_to_start limit1 g, t1) /\
    cb_raw_command msg hw (set_max_dc_to_start limit2 g)
    = Some (tt, set_max_dc_to_start limit2 g, t2) /\
    (directives t1 <> [EvMotorStop] -> t2 = t1).
Proof.
  intros Hle.
  destruct (Nat.lt_ge_cases (length (RawCommand_cmd msg))
              (N.to_nat (self_index g) + 1)) as [Hs | Hl].
  - exists [EvMotorStop], [EvMotorStop].
    split; [apply cb_raw_command_short; exact Hs |].
    split; [apply cb_raw_command_short; exact Hs | reflexivity].
  - rewrite (cb_raw_command_long msg hw (set_max_dc_to_start limit1 g) Hl).
    rewrite (cb_raw_command_long msg hw (set_max_dc_to_start limit2 g) Hl).
    cbn [self_index command_ttl_ms max_dc_to_start set_max_dc_to_start].
    do 2 eexists. split; [reflexivity |]. split; [reflexivity |].
    set (scaled := scaled_dc_of (nth (N.to_nat (self_index g)) (RawCommand_cmd msg) 0)).
    pose proof (SFleb_trans scaled limit1 limit2) as Htrans.
    unfold F32.leb in *.
    destruct (motor_is_idle hw), (SFleb scaled limit1), (F32.ltb F32.zero scaled);
      cbn [negb orb andb directives filter is_directive]; intros Hacc;
      try reflexivity; try (exfalso; apply Hacc; reflexivity).
    rewrite (Htrans eq_refl Hle). reflexivity.
Qed.

End Handlers.

(* ------------------------------------------------------------------ *)
(** ** The spec's examples, evaluated *)

(** Idle motor, limit 0.05, own slot at 0.9: rejected. *)
Example example_idle_above_limit :
  cb_raw_command 8191 sample_raw (sample_hw true) sample_node
  = Some (tt, sample_node, [EvArrayRead 3; EvMotorStop]).
Proof. vm_compute. reflexivity. Qed.

(** Same message, motor running: accepted with the command window. *)
Example example_running :
  cb_raw_command 8191 sample_raw (sample_hw false) sample_node
  = Some (tt, sample_node,
          [EvArrayRead 3; EvMotorSetDutyCycle (scaled_dc_of 8191 7372) 200]).
Proof. vm_compute. reflexivity. Qed.

(** RPM array of length 2 on a node at slot 2. *)
Example example_rpm_out_of_range :
  let g := set_config {| param_pub_rate_ms := 40; param_esc_index := 2;
                         param_cmd_ttl_ms := 200;
                         param_cmd_start_dc := sample_limit |} sample_node in
  cb_rpm_command sample_rpm_short g = Some (tt, g, [EvMotorStop]).
Proof. vm_compute. reflexivity. Qed.

(** No status 500 ms after the watermark, one on the tick that reaches
    990 ms, the next one 990 ms later and not 1 ms sooner. *)
Example example_decimation :
  option_map (fun r => status_times (snd r)) (run 8191 sample_calls sample_node)
  = Some [990000; 1980000].
Proof. vm_compute. reflexivity. Qed.

(** A tick before start-up would use a null publisher. *)
Example example_tick_before_init :
  cb_esc (tick_at 990) (sample_hw false) boot = None.
Proof. reflexivity. Qed.

(* ------------------------------------------------------------------ *)
(** ** The theorems at the sample data *)

Lemma sample_node_ready : node_ready sample_node.
Proof. split; discriminate. Defined.

Lemma sample_watermark_in_range : Mono.in_range (prev_pub_ts sample_node).
Proof. unfold Mono.in_range. cbn [prev_pub_ts sample_node]. lia. Defined.

(** The start-up limit at the idle sample node: slot 3 holds 0.9, above the limit 0.05. *)
Lemma cb_raw_command_accepts_witness :
  (N.to_nat (self_index sample_node) + 1 <= length (RawCommand_cmd sample_raw))%nat /\
  exists t,
    cb_raw_command 8191 sample_raw (sample_hw true) sample_node
    = Some (tt, sample_node, t) /\
    directives t = [EvMotorStop].
Proof.
  split; [simpl; lia |].
  destruct (cb_raw_command_accepts 8191 sample_raw (sample_hw true) sample_node)
    as (t & Hrun & _ & _ & Hstop & _); [simpl; lia |].
  exists t. split; [exact Hrun |].
  apply Hstop; reflexivity.
Defined.

(** The undersized guard on the two-slot array, read by the node at slot 3. *)
Lemma undersized_message_stops_witness :
  (length (RPMCommand_rpm sample_rpm_short)
   < N.to_nat (self_index sample_node) + 1)%nat /\
  stops_without_reading sample_node
    (cb_raw_command 8191 {| RawCommand_cmd := RPMCommand_rpm sample_rpm_short |}
       (sample_hw false) sample_node) /\
  stops_without_reading sample_node (cb_rpm_command sample_rpm_short sample_node).
Proof.
  split; [simpl; lia |].
  apply (undersized_message_stops 8191 (RPMCommand_rpm sample_rpm_short)
           (sample_hw false) sample_node).
  simpl; lia.
Defined.

(** The RPM handler on the four-slot array: slot 3 asks for 2500 RPM. *)
Lemma cb_rpm_command_sign_witness :
  (N.to_nat (self_index sample_node) + 1 <= length (RPMCommand_rpm sample_rpm))%nat /\
  exists t,
    cb_rpm_command sample_rpm sample_node = Some (tt, sample_node, t) /\
    directives t = [EvMotorSetRpm 2500 200].
Proof.
  split; [simpl; lia |].
  destruct (cb_rpm_command_sign 8191 sample_rpm sample_node)
    as (t & Hrun & Hpos & _); [simpl; lia |].
  exists t. split; [exact Hrun |].
  apply Hpos. simpl; lia.
Defined.

(** The feedback of a tick 500 ms after the watermark. *)
Lemma cb_esc_feedback_every_tick_witness :
  node_ready sample_node /\
  exists g' t,
    cb_esc (tick_at 500) (sample_hw false) sample_node = Some (tt, g', t) /\
    filter is_rpm_fb t =
      [EvBroadcastRpmFb {| RPMFeedback_esc_index := 3; RPMFeedback_rpm := 1200 |}].
Proof.
  split; [exact sample_node_ready |].
  destruct (cb_esc_feedback_every_tick (tick_at 500) (sample_hw false) sample_node
              sample_node_ready) as (g' & t & Hrun & Hfb & _).
  exists g', t. split; [exact Hrun | exact Hfb].
Defined.

(** Decimation at the sample node: the tick at 990 ms, and the sample
    sequence. *)
Lemma status_decimation_witness :
  node_ready sample_node /\
  Mono.in_range (prev_pub_ts sample_node) /\
  Mono.in_range (scheduled_time (tick_at 990)) /\
  ticks_in_range sample_calls /\
  (exists g' t,
      cb_esc (tick_at 990) (sample_hw false) sample_node = Some (tt, g', t) /\
      existsb is_status t = true /\
      prev_pub_ts g' = 990000) /\
  (exists g' log,
      run 8191 sample_calls sample_node = Some (g', log) /\
      StronglySorted (fun a b => status_period_usec <= b - a) (status_times log)).
Proof.
  assert (Hev : Mono.in_range (scheduled_time (tick_at 990)))
    by (unfold Mono.in_range; cbn [scheduled_time tick_at]; lia).
  assert (Hcalls : ticks_in_range sample_calls)
    by (unfold ticks_in_range, sample_calls, Mono.in_range;
        repeat constructor; cbn [fst scheduled_time tick_at]; lia).
  split; [exact sample_node_ready |].
  split; [exact sample_watermark_in_range |].
  split; [exact Hev |]. split; [exact Hcalls |].
  destruct (status_decimation 8191 sample_node sample_node_ready) as [Htick Hseq].
  split.
  - destruct (Htick (tick_at 990) (sample_hw false))
      as (g' & t & Hrun & _ & Hiff & Hset & _).
    assert (Hst : existsb is_status t = true)
      by (apply (Hiff sample_watermark_in_range Hev); unfold status_period_usec;
          cbn [scheduled_time tick_at prev_pub_ts sample_node]; lia).
    exists g', t. split; [exact Hrun | split; [exact Hst |]].
    destruct (Hset Hst) as [_ ->]. reflexivity.
  - destruct (Hseq sample_watermark_in_range sample_calls Hcalls)
      as (g' & log & Hrun & _ & Hs & _).
    exists g', log. split; [exact Hrun | exact Hs].
Defined.

(** The status assembled from the sample hardware, whose sensor reports -1. *)
Lemma invalid_temperature_is_nan_witness :
  F32.ltb (get_temperature_K (sample_hw false)) F32.zero = true /\
  node_ready sample_node /\
  status_due (scheduled_time (tick_at 990)) (prev_pub_ts sample_node) = true /\
  Status_temperature (assemble_status sample_node (sample_hw false)) = S754_nan /\
  exists g' t,
    cb_esc (tick_at 990) (sample_hw false) sample_node = Some (tt, g', t) /\
    filter is_status t
    = [EvBroadcastStatus (assemble_status sample_node (sample_hw false))].
Proof.
  split; [reflexivity |]. split; [exact sample_node_ready |].
  split; [reflexivity |].
  destruct (invalid_temperature_is_nan (tick_at 990) (sample_hw false) sample_node)
    as (Hneg & _ & Hdue).
  split.
  - apply Hneg. reflexivity.
  - apply Hdue; [exact sample_node_ready | reflexivity].
Defined.

(** Start-up on the transport whose status publisher fails with -3. *)
Lemma init_esc_controller_propagates_witness :
  sub_raw_command_start sample_node_failing = 0 /\
  sub_rpm_command_start sample_node_failing = 0 /\
  pub_status_init sample_node_failing <> 0 /\
  exists g' t,
    init_esc_controller sample_params sample_node_failing boot = Some (-3, g', t) /\
    t = [EvSubscriberStart DtRawCommand; EvSubscriberStart DtRPMCommand;
         EvPublisherInit DtStatus] /\
    existsb is_timer_start t = false.
Proof.
  split; [reflexivity |]. split; [reflexivity |]. split; [discriminate |].
  destruct (init_esc_controller_propagates sample_params sample_node_failing boot)
    as (g' & t & res & Hrun & _ & _ & H3 & _).
  destruct H3 as [Hres Ht]; [reflexivity | reflexivity | discriminate |].
  exists g', t. rewrite Hrun, Hres, Ht. repeat split.
Defined.

(** From boot through a successful start-up and the sample sequence. *)
Lemma config_frame_witness :
  exists g t0,
    init_esc_controller sample_params sample_node_ok boot = Some (0, g, t0) /\
    (existsb is_tick (map fst sample_calls) = true -> 0 = 0) /\
    exists g' log,
      run 8191 sample_calls g = Some (g', log) /\
      config g' = (40%N, 3%N, 200%N, sample_limit).
Proof.
  eexists. eexists.
  split; [reflexivity |]. split; [reflexivity |].
  edestruct (config_frame 8191 sample_params sample_node_ok boot)
    as (Hcfg & g' & log & Hrun & Hsame & _);
    [reflexivity | reflexivity |].
  exists g', log. split; [exact Hrun |].
  rewrite Hsame. exact Hcfg.
Defined.

(** Two raw commands of different lengths that share slot 3. *)
Lemma directive_depends_on_own_slot_witness :
  (N.to_nat (self_index sample_node) + 1 <= length (RawCommand_cmd sample_raw))%nat /\
  (N.to_nat (self_index sample_node) + 1
   <= length (RawCommand_cmd sample_raw_other))%nat /\
  nth (N.to_nat (self_index sample_node)) (RawCommand_cmd sample_raw) 0
  = nth (N.to_nat (self_index sample_node)) (RawCommand_cmd sample_raw_other) 0 /\
  motor_is_idle (sample_hw false) = motor_is_idle (sample_hw false) /\
  cb_raw_command 8191 sample_raw (sample_hw false) sample_node
  = cb_raw_command 8191 sample_raw_other (sample_hw false) sample_node.
Proof.
  split; [simpl; lia |]. split; [simpl; lia |].
  split; [reflexivity |]. split; [reflexivity |].
  destruct (directive_depends_on_own_slot 8191
              (RawCommand_cmd sample_raw) (RawCommand_cmd sample_raw_other)
              (sample_hw false) (sample_hw false) sample_node)
    as [(t & d & H1 & H2 & _) _];
    [simpl; lia | simpl; lia | reflexivity | reflexivity |].
  change sample_raw with {| RawCommand_cmd := RawCommand_cmd sample_raw |}.
  change sample_raw_other with {| RawCommand_cmd := RawCommand_cmd sample_raw_other |}.
  rewrite H1, H2. reflexivity.
Defined.

(* ------------------------------------------------------------------ *)
(** ** The run-level theorems at the sample data *)

Lemma sample_calls_in_range : ticks_in_range sample_calls.
Proof.
  unfold ticks_in_range, sample_calls, Mono.in_range.
  repeat constructor; cbn [fst scheduled_time tick_at]; lia.
Defined.

Lemma run_directives_in_contract_witness :
  (node_ready sample_node \/ existsb is_tick (map fst sample_calls) = false) /\
  exists g' log,
    run 8191 sample_calls sample_node = Some (g', log) /\
    In (EvMotorSetDutyCycle (scaled_dc_of 8191 7372) 200) (log_events log).
Proof.
  split; [left; exact sample_node_ready |].
  destruct (run_directives_in_contract 8191 sample_calls sample_node
              (or_introl sample_node_ready)) as (g' & log & Hrun & _).
  exists g', log. split; [exact Hrun |].
  vm_compute in Hrun. injection Hrun as _ <-. vm_compute. tauto.
Defined.

Lemma run_broadcasts_well_formed_witness :
  node_ready sample_node /\
  exists g' log,
    run 8191 sample_calls sample_node = Some (g', log) /\
    forall m, In (EvBroadcastStatus m) (log_events log) ->
              Status_esc_index m = 3%N /\
              F32.ltb (Status_temperature m) F32.zero = false.
Proof.
  split; [exact sample_node_ready |].
  destruct (run_broadcasts_well_formed 8191 sample_calls sample_node
              sample_node_ready) as (g' & log & Hrun & Hall).
  exists g', log. split; [exact Hrun |].
  intros m Hin. exact (Hall (EvBroadcastStatus m) Hin).
Defined.

Lemma run_counts_witness :
  (node_ready sample_node \/ existsb is_tick (map fst sample_calls) = false) /\
  exists g' log,
    run 8191 sample_calls sample_node = Some (g', log) /\
    length (directives (log_events log)) = 1%nat /\
    length (filter is_rpm_fb (log_events log)) = 5%nat.
Proof.
  split; [left; exact sample_node_ready |].
  destruct (run_counts 8191 sample_calls sample_node (or_introl sample_node_ready))
    as (g' & log & Hrun & Hd & Hf & _).
  exists g', log. split; [exact Hrun |]. split; [exact Hd | exact Hf].
Defined.

Lemma commands_and_ticks_independent_witness :
  node_ready sample_node /\
  exists g' log,
    run 8191 sample_calls sample_node = Some (g', log) /\
    run 8191 (ticks_of sample_calls) sample_node = Some (g', tick_entries log) /\
    run 8191 (commands_of sample_calls) sample_node
    = Some (sample_node, command_entries log).
Proof.
  split; [exact sample_node_ready |].
  destruct (commands_and_ticks_independent 8191 sample_calls sample_node
              sample_node_ready) as (g' & log & Hrun & Ht & Hc & _).
  exists g', log. split; [exact Hrun |]. split; [exact Ht | exact Hc].
Defined.

(** The sample ticks are at most 500 ms apart. *)
Lemma status_never_stale_witness :
  node_ready sample_node /\
  Mono.in_range (prev_pub_ts sample_node) /\
  ticks_in_range sample_calls /\
  prev_pub_ts sample_node <= 0 < prev_pub_ts sample_node + status_period_usec /\
  ticks_paced 500000 0 sample_calls /\
  exists g' log,
    run 8191 sample_calls sample_node = Some (g', log) /\
    steps_below (status_period_usec + 500000)
      (prev_pub_ts sample_node :: status_times log).
Proof.
  assert (Htau : prev_pub_ts sample_node <= 0
                 < prev_pub_ts sample_node + status_period_usec)
    by (cbn [prev_pub_ts sample_node]; unfold status_period_usec; lia).
  assert (Hpace : ticks_paced 500000 0 sample_calls)
    by (cbn [ticks_paced sample_calls scheduled_time tick_at]; lia).
  split; [exact sample_node_ready |].
  split; [exact sample_watermark_in_range |].
  split; [exact sample_calls_in_range |].
  split; [exact Htau |]. split; [exact Hpace |].
  destruct (status_never_stale 8191 500000 sample_calls sample_node 0
              sample_node_ready sample_watermark_in_range sample_calls_in_range
              Htau Hpace) as (g' & log & Hrun & Hsteps & _).
  exists g', log. split; [exact Hrun | exact Hsteps].
Defined.

Lemma status_rate_limited_witness :
  node_ready sample_node /\
  Mono.in_range (prev_pub_ts sample_node) /\
  ticks_in_range sample_calls /\
  exists g' log,
    run 8191 sample_calls sample_node = Some (g', log) /\
    Z.of_nat (length (status_times log)) * status_period_usec
    <= prev_pub_ts g' - prev_pub_ts sample_node.
Proof.
  split; [exact sample_node_ready |].
  split; [exact sample_watermark_in_range |].
  split; [exact sample_calls_in_range |].
  destruct (status_rate_limited 8191 sample_calls sample_node sample_node_ready
              sample_watermark_in_range sample_calls_in_range)
    as (g' & log & Hrun & _ & Hspan).
  exists g', log. split; [exact Hrun | exact Hspan].
Defined.

Lemma first_status_after_boot_witness :
  exists g t0,
    init_esc_controller sample_params sample_node_ok boot = Some (0, g, t0) /\
    ticks_in_range sample_calls /\
    exists g' log,
      run 8191 sample_calls g = Some (g', log) /\
      Forall (fun t => status_period_usec <= t) (status_times log).
Proof.
  do 2 eexists. split; [reflexivity |].
  split; [exact sample_calls_in_range |].
  edestruct (first_status_after_boot 8191 sample_params sample_node_ok)
    as [(g' & log & Hrun & Hall) _];
    [reflexivity | exact sample_calls_in_range |].
  exists g', log. split; [exact Hrun | exact Hall].
Defined.

(** Slot 3 of the sample message holds 7372. *)
Lemma raw_command_by_set_point_witness :
  8191 = 8191 /\
  (N.to_nat (self_index sample_node) + 1 <= length (RawCommand_cmd sample_raw))%nat /\
  int14 (nth (N.to_nat (self_index sample_node)) (RawCommand_cmd sample_raw) 0) /\
  exists t,
    cb_raw_command 8191 sample_raw (sample_hw false) sample_node
    = Some (tt, sample_node, t) /\
    directives t = [EvMotorSetDutyCycle (scaled_dc_of 8191 7372) 200].
Proof.
  assert (Hraw : int14 (nth (N.to_nat (self_index sample_node))
                          (RawCommand_cmd sample_raw) 0))
    by (unfold int14; simpl; lia).
  split; [reflexivity |]. split; [simpl; lia |]. split; [exact Hraw |].
  destruct (raw_command_by_set_point 8191 sample_raw (sample_hw false) sample_node
              eq_refl) as (t & Hrun & _ & Hpos & _);
    [simpl; lia | exact Hraw |].
  exists t. split; [exact Hrun |].
  apply Hpos; [simpl; lia | reflexivity].
Defined.

Lemma default_limit_never_rejects_witness :
  8191 = 8191 /\
  max_dc_to_start (set_max_dc_to_start F32.one sample_node) = F32.one /\
  Forall int14 (RawCommand_cmd sample_raw) /\
  cb_raw_command 8191 sample_raw (sample_hw true)
    (set_max_dc_to_start F32.one sample_node)
  = cb_raw_command 8191 sample_raw (sample_hw false)
      (set_max_dc_to_start F32.one sample_node).
Proof.
  assert (Hall : Forall int14 (RawCommand_cmd sample_raw))
    by (unfold int14; repeat constructor; lia).
  split; [reflexivity |]. split; [reflexivity |]. split; [exact Hall |].
  apply (default_limit_never_rejects 8191 sample_raw (sample_hw true)
           (sample_hw false) (set_max_dc_to_start F32.one sample_node)
           eq_refl eq_refl Hall).
Defined.

Lemma init_esc_controller_timer_period_witness :
  (param_pub_rate_ms sample_params < 2 ^ 32)%N /\
  exists g t,
    init_esc_controller sample_params sample_node_ok boot = Some (0, g, t) /\
    filter is_timer_start t = [EvTimerStartPeriodic 40000].
Proof.
  split; [reflexivity |].
  do 2 eexists. split; [reflexivity |].
  edestruct (init_esc_controller_timer_period sample_params sample_node_ok boot)
    as [Hperiod _]; [reflexivity | reflexivity |].
  exact Hperiod.
Defined.

(** The running limit 0.05 raised to 1.0, for the sample message on an
    idle motor. *)
Lemma raising_limit_keeps_acceptance_witness :
  F32.leb sample_limit F32.one = true /\
  exists t1 t2,
    cb_raw_command 8191 sample_raw (sample_hw true)
      (set_max_dc_to_start sample_limit sample_node)
    = Some (tt, set_max_dc_to_start sample_limit sample_node, t1) /\
    cb_raw_command 8191 sample_raw (sample_hw true)
      (set_max_dc_to_start F32.one sample_node)
    = Some (tt, set_max_dc_to_start F32.one sample_node, t2).
Proof.
  split; [reflexivity |].
  destruct (raising_limit_keeps_acceptance 8191 sample_raw (sample_hw true)
              sample_node sample_limit F32.one eq_refl)
    as (t1 & t2 & H1 & H2 & _).
  exists t1, t2. split; [exact H1 | exact H2].
Defined.
